(** * WeddingUpload: a shallow embedding of [app.py]

    The Flask application is embedded function by function.  Python [str]
    values are Rocq strings whose characters are the code points 0..255
    (header values reach a WSGI application decoded as Latin-1, and
    sanitised file names are ASCII).  Python sets are [gset]s, directories
    are finite maps from names to contents, and the effects of the upload
    handler (the two directories, flash messages and the sequence of file
    system operations) are threaded through an explicit state. *)

From Stdlib Require Import ZArith Ascii String List Bool Lia.
From stdpp Require Import base strings list gmap.

Local Open Scope string_scope.
Local Open Scope Z_scope.

#[local] Set Warnings "-clear-no-such-hyp".

(* ====================================================================== *)
(** * Definitions *)
(* ====================================================================== *)

(** ** Python string methods used by the application *)

Module PyStr.

(** [c in s] for a one-character [c]. *)
Fixpoint contains (c : ascii) (s : string) : bool :=
  match s with
  | EmptyString => false
  | String d s' => Ascii.eqb c d || contains c s'
  end.

(** [s.split(sep)] for a one-character separator: never the empty list. *)
Fixpoint split (sep : ascii) (s : string) : list string :=
  match s with
  | EmptyString => [EmptyString]
  | String c s' =>
      if Ascii.eqb c sep then EmptyString :: split sep s'
      else match split sep s' with
           | [] => [String c EmptyString]
           | x :: xs => String c x :: xs
           end
  end.

(** The cut made by [s.rsplit(sep, 1)]: the text before and after the last
    occurrence of [sep], or [None] when [sep] does not occur. *)
Fixpoint rcut (sep : ascii) (s : string) : option (string * string) :=
  match s with
  | EmptyString => None
  | String c s' =>
      match rcut sep s' with
      | Some (a, b) => Some (String c a, b)
      | None => if Ascii.eqb c sep then Some (EmptyString, s') else None
      end
  end.

(** [s.rsplit(sep, 1)]: a list of one or two strings. *)
Definition rsplit1 (sep : ascii) (s : string) : list string :=
  match rcut sep s with
  | Some (a, b) => [a; b]
  | None => [s]
  end.

(** [str.lower] on the code points 0..255: A-Z and the Latin-1 capitals
    U+00C0..U+00DE (the multiplication sign U+00D7 excepted) move up by 32. *)
Definition lower_char (c : ascii) : ascii :=
  let n := N_of_ascii c in
  if ((65 <=? n) && (n <=? 90))%N then ascii_of_N (n + 32)
  else if ((192 <=? n) && (n <=? 222) && negb (n =? 215))%N
       then ascii_of_N (n + 32)
       else c.

Fixpoint lower (s : string) : string :=
  match s with
  | EmptyString => EmptyString
  | String c s' => String (lower_char c) (lower s')
  end.

(** [str.isspace] on the code points 0..255. *)
Definition is_space (c : ascii) : bool :=
  let n := N_of_ascii c in
  (((9 <=? n) && (n <=? 13)) || ((28 <=? n) && (n <=? 32))
   || (n =? 133) || (n =? 160))%N.

Definition is_empty (s : string) : bool :=
  match s with EmptyString => true | _ => false end.

Fixpoint lstrip (s : string) : string :=
  match s with
  | EmptyString => EmptyString
  | String c s' => if is_space c then lstrip s' else s
  end.

Fixpoint rstrip (s : string) : string :=
  match s with
  | EmptyString => EmptyString
  | String c s' =>
      let r := rstrip s' in
      if is_space c && is_empty r then EmptyString else String c r
  end.

(** [s.strip()] *)
Definition strip (s : string) : string := rstrip (lstrip s).

(** [s.startswith(p)] *)
Definition startswith (s p : string) : bool := String.prefix p s.

(** [s.replace(old, new)] for a non-empty [old]: occurrences are replaced
    from the left and do not overlap.  [skip] counts the characters of a
    match that are still to be passed over. *)
Fixpoint replace_from (old new : string) (skip : nat) (s : string) : string :=
  match s with
  | EmptyString => EmptyString
  | String c s' =>
      match skip with
      | S k => replace_from old new k s'
      | O =>
          if String.prefix old s
          then new +:+ replace_from old new (String.length old - 1) s'
          else String c (replace_from old new O s')
      end
  end.

Definition replace (old new s : string) : string := replace_from old new O s.

(** [sep.join(l)] *)
Fixpoint join (sep : string) (l : list string) : string :=
  match l with
  | [] => EmptyString
  | [x] => x
  | x :: xs => x +:+ sep +:+ join sep xs
  end.

(** Truthiness of a possibly missing string: [None] and [''] are falsy. *)
Definition truthy (o : option string) : bool :=
  match o with
  | Some s => negb (is_empty s)
  | None => false
  end.

Fixpoint format_d_go (fuel : nat) (n : N) (acc : string) : string :=
  match fuel with
  | O => acc
  | S fuel' =>
      let acc' := String (ascii_of_N (48 + n mod 10)) acc in
      if (n / 10 =? 0)%N then acc' else format_d_go fuel' (n / 10)%N acc'
  end.

(** [str(n)] for [0 <= n]. *)
Definition format_d (n : Z) : string :=
  format_d_go (S (N.size_nat (Z.to_N n))) (Z.to_N n) EmptyString.

Definition hex_digit (n : N) : ascii :=
  if (n <? 10)%N then ascii_of_N (48 + n) else ascii_of_N (87 + n).

Fixpoint format_x_go (fuel : nat) (n : N) (acc : string) : string :=
  match fuel with
  | O => acc
  | S fuel' =>
      let acc' := String (hex_digit (n mod 16)) acc in
      if (n / 16 =? 0)%N then acc' else format_x_go fuel' (n / 16)%N acc'
  end.

(** ['%x' % n] for [0 <= n]. *)
Definition format_x (n : Z) : string :=
  format_x_go (S (N.size_nat (Z.to_N n))) (Z.to_N n) EmptyString.

End PyStr.

(** ** Application configuration (module-level constants) *)

Definition ALLOWED_EXTENSIONS : gset string :=
  {[ "png"; "jpg"; "jpeg"; "gif"; "mp4"; "mov"; "avi"; "mkv"; "webm" ]}.

Definition ALLOWED_MIMETYPES : gset string :=
  {[ "image/png"; "image/jpeg"; "image/jpg"; "image/gif";
     "video/mp4"; "video/quicktime"; "video/x-msvideo"; "video/x-matroska";
     "video/webm" ]}.

Definition MAX_FILES_PER_REQUEST : nat := 10.

Definition THUMBNAIL_SIZE : Z * Z := (300, 300).

(** ** Utility functions *)

(** [allowed_file]: a dot occurs and the text after the last dot, lowered,
    is an allowed extension. *)
Definition allowed_file (filename : string) : bool :=
  PyStr.contains "." filename
  && match PyStr.rsplit1 "." filename !! 1%nat with
     | Some ext => bool_decide (PyStr.lower ext ∈ ALLOWED_EXTENSIONS)
     | None => false
     end.

(** [get_file_type]: [None] stands for the [IndexError] raised by
    [filename.rsplit('.', 1)[1]] when the name has no dot. *)
Definition get_file_type (filename : string) : option string :=
  match PyStr.rsplit1 "." filename !! 1%nat with
  | None => None
  | Some ext =>
      let extension := PyStr.lower ext in
      if bool_decide (extension ∈ ({[ "png"; "jpg"; "jpeg"; "gif" ]} : gset string))
      then Some "image"
      else if bool_decide
                (extension ∈ ({[ "mp4"; "mov"; "avi"; "mkv"; "webm" ]} : gset string))
      then Some "video"
      else Some "unknown"
  end.

(** ** The standard library's [ipaddress] module

    [ip_address] is called by the resolver on every candidate string.  The
    functions below follow CPython's [Lib/ipaddress.py] (3.9 to 3.12) on
    [str] arguments; [None] stands for the [ValueError] it raises. *)

Module Ipaddress.

Inductive address : Type :=
| IPv4Address (ip : Z)
| IPv6Address (ip : Z) (scope_id : option string).

Definition version (a : address) : Z :=
  match a with
  | IPv4Address _ => 4
  | IPv6Address _ _ => 6
  end.

Definition chars (s : string) : list ascii := list_ascii_of_string s.

Definition is_decimal_digit (c : ascii) : bool :=
  let n := N_of_ascii c in ((48 <=? n) && (n <=? 57))%N.

(** The value of a hexadecimal digit, [None] for any other character. *)
Definition hex_digit_value (c : ascii) : option Z :=
  let n := Z.of_N (N_of_ascii c) in
  if (48 <=? n) && (n <=? 57) then Some (n - 48)
  else if (65 <=? n) && (n <=? 70) then Some (n - 55)
  else if (97 <=? n) && (n <=? 102) then Some (n - 87)
  else None.

Definition is_hex_digit (c : ascii) : bool :=
  match hex_digit_value c with Some _ => true | None => false end.

(** [int(s, 10)] and [int(s, 16)] on strings of legal digits. *)
Definition int_base (base : Z) (s : string) : Z :=
  fold_left
    (fun acc c => base * acc + default 0 (hex_digit_value c)) (chars s) 0.

(** [IPv4Address._parse_octet] *)
Definition parse_octet (octet_str : string) : option Z :=
  if PyStr.is_empty octet_str then None
  else if negb (forallb is_decimal_digit (chars octet_str)) then None
  else if (3 <? String.length octet_str)%nat then None
  else if negb (String.eqb octet_str "0") && PyStr.startswith octet_str "0"
  then None
  else
    let octet_int := int_base 10 octet_str in
    if 255 <? octet_int then None else Some octet_int.

(** [int.from_bytes(octets, 'big')] *)
Definition from_bytes_big (octets : list Z) : Z :=
  fold_left (fun acc b => acc * 256 + b) octets 0.

(** [IPv4Address._ip_int_from_string] *)
Definition ipv4_int_from_string (ip_str : string) : option Z :=
  if PyStr.is_empty ip_str then None
  else
    let octets := PyStr.split "." ip_str in
    if negb (length octets =? 4)%nat then None
    else from_bytes_big <$> mapM parse_octet octets.

(** [IPv4Address(address)._ip] for a string argument. *)
Definition ipv4_of_string (addr_str : string) : option Z :=
  if PyStr.contains "/" addr_str then None
  else ipv4_int_from_string addr_str.

(** [s.partition(sep)]: the text before the first [sep], whether [sep] was
    found, and the text after it. *)
Fixpoint partition (sep : ascii) (s : string) : string * bool * string :=
  match s with
  | EmptyString => (EmptyString, false, EmptyString)
  | String c s' =>
      if Ascii.eqb c sep then (EmptyString, true, s')
      else let '(a, found, b) := partition sep s' in (String c a, found, b)
  end.

(** [IPv6Address._split_scope_id] *)
Definition split_scope_id (ip_str : string) : option (string * option string) :=
  let '(addr, sep, scope_id) := partition "%" ip_str in
  if negb sep then Some (addr, None)
  else if PyStr.is_empty scope_id || PyStr.contains "%" scope_id then None
  else Some (addr, Some scope_id).

(** [IPv6Address._parse_hextet]; [int('', 16)] raises [ValueError]. *)
Definition parse_hextet (hextet_str : string) : option Z :=
  if negb (forallb is_hex_digit (chars hextet_str)) then None
  else if (4 <? String.length hextet_str)%nat then None
  else if PyStr.is_empty hextet_str then None
  else Some (int_base 16 hextet_str).

(** The loop that looks for ['::'] strictly between the end points:
    the index of the one empty part, and an error on a second one. *)
Definition find_skip_index (parts : list string) : option (option nat) :=
  fold_left
    (fun (st : option (option nat)) (i : nat) =>
       match st with
       | None => None
       | Some skip_index =>
           if PyStr.truthy (parts !! i) then Some skip_index
           else match skip_index with
                | Some _ => None
                | None => Some (Some i)
                end
       end)
    (seq 1 (length parts - 2)) (Some None).

Definition shift_in (acc : Z) (hextets : list Z) : Z :=
  fold_left (fun acc h => Z.lor (Z.shiftl acc 16) h) hextets acc.

(** [IPv6Address._ip_int_from_string] *)
Definition ipv6_int_from_string (ip_str : string) : option Z :=
  if PyStr.is_empty ip_str then None
  else
    let parts := PyStr.split ":" ip_str in
    if (length parts <? 3)%nat then None
    else
      parts ←
        (if PyStr.contains "." (List.last parts EmptyString)
         then
           ipv4_int ← ipv4_of_string (List.last parts EmptyString);
           Some (removelast parts
                   ++ [PyStr.format_x (Z.land (Z.shiftr ipv4_int 16) 65535);
                       PyStr.format_x (Z.land ipv4_int 65535)])%list
         else Some parts);
      if (9 <? length parts)%nat then None
      else
        skip_index ← find_skip_index parts;
        '(parts_hi, parts_lo, parts_skipped) ←
          match skip_index with
          | Some k =>
              let parts_hi := k in
              let parts_lo := (length parts - k - 1)%nat in
              parts_hi ←
                (if PyStr.truthy (parts !! 0%nat) then Some parts_hi
                 else if (parts_hi - 1 =? 0)%nat then Some (parts_hi - 1)%nat
                      else None);
              parts_lo ←
                (if PyStr.truthy (Some (List.last parts EmptyString))
                 then Some parts_lo
                 else if (parts_lo - 1 =? 0)%nat then Some (parts_lo - 1)%nat
                      else None);
              if (8 <=? parts_hi + parts_lo)%nat then None
              else Some (parts_hi, parts_lo, (8 - (parts_hi + parts_lo))%nat)
          | None =>
              if negb (length parts =? 8)%nat then None
              else if negb (PyStr.truthy (parts !! 0%nat)) then None
              else if negb (PyStr.truthy (Some (List.last parts EmptyString)))
              then None
              else Some (length parts, 0%nat, 0%nat)
          end;
        hi ← mapM parse_hextet (take parts_hi parts);
        lo ← mapM parse_hextet (drop (length parts - parts_lo) parts);
        Some (shift_in
                (Z.shiftl (shift_in 0 hi) (16 * Z.of_nat parts_skipped)) lo).

(** [IPv6Address(address)] for a string argument. *)
Definition ipv6_of_string (addr_str : string) : option (Z * option string) :=
  if PyStr.contains "/" addr_str then None
  else
    '(addr, scope_id) ← split_scope_id addr_str;
    ip ← ipv6_int_from_string addr;
    Some (ip, scope_id).

(** [ipaddress.ip_address]: IPv4 is tried first, then IPv6. *)
Definition ip_address (addr_str : string) : option address :=
  match ipv4_of_string addr_str with
  | Some ip => Some (IPv4Address ip)
  | None =>
      match ipv6_of_string addr_str with
      | Some (ip, scope_id) => Some (IPv6Address ip scope_id)
      | None => None
      end
  end.

(** The running state of [_compress_hextets]: the best run of zero
    hextets so far and the current one ([-1] for no start). *)
Record run_state : Type := RunState {
  best_doublecolon_start : Z;
  best_doublecolon_len : Z;
  doublecolon_start : Z;
  doublecolon_len : Z
}.

Definition run_step (st : run_state) (entry : nat * string) : run_state :=
  let '(index, hextet) := entry in
  if String.eqb hextet "0" then
    let len := doublecolon_len st + 1 in
    let start :=
      if doublecolon_start st =? -1 then Z.of_nat index
      else doublecolon_start st in
    if best_doublecolon_len st <? len
    then RunState start len start len
    else RunState (best_doublecolon_start st) (best_doublecolon_len st) start len
  else RunState (best_doublecolon_start st) (best_doublecolon_len st) (-1) 0.

(** [IPv6Address._compress_hextets] *)
Definition compress_hextets (hextets : list string) : list string :=
  let st := fold_left run_step (imap (fun i h => (i, h)) hextets)
                      (RunState (-1) 0 (-1) 0) in
  if 1 <? best_doublecolon_len st then
    let best_start := Z.to_nat (best_doublecolon_start st) in
    let best_end := Z.to_nat (best_doublecolon_start st + best_doublecolon_len st) in
    let hextets :=
      if (best_end =? length hextets)%nat then (hextets ++ [EmptyString])%list
      else hextets in
    let hextets :=
      (take best_start hextets ++ [EmptyString] ++ drop best_end hextets)%list in
    if (best_start =? 0)%nat then EmptyString :: hextets else hextets
  else hextets.

(** [IPv6Address._string_from_ip_int] *)
Definition string_from_ip_int (ip_int : Z) : string :=
  let hextets :=
    map (fun i : nat =>
           PyStr.format_x (Z.land (Z.shiftr ip_int (16 * (7 - Z.of_nat i))) 65535))
        (seq 0 8) in
  PyStr.join ":" (compress_hextets hextets).

(** [IPv4Address._string_from_ip_int] *)
Definition string_from_ipv4_int (ip_int : Z) : string :=
  PyStr.join "."
    (map (fun i : nat =>
            PyStr.format_d (Z.land (Z.shiftr ip_int (8 * (3 - Z.of_nat i))) 255))
         (seq 0 4)).

(** The [compressed] property, which is [str(self)]. *)
Definition compressed (a : address) : string :=
  match a with
  | IPv4Address ip => string_from_ipv4_int ip
  | IPv6Address ip scope_id =>
      let ip_str := string_from_ip_int ip in
      if PyStr.truthy scope_id
      then ip_str +:+ "%" +:+ default EmptyString scope_id
      else ip_str
  end.

End Ipaddress.

(** ** Client IP resolver *)

Module ClientIP.

(** What the resolver reads of a request: its headers and the address of
    the peer ([request.remote_addr], which may be [None]). *)
Record request : Type := Request {
  headers : gmap string string;
  remote_addr : option string
}.

(** The debug line written by the branch that answers. *)
Inductive ip_log : Type :=
| LogCfConnectingIPv6 (cf_ipv6 result : string) (pseudo_ipv4 : option string)
| LogCfPseudoIPv4 (cf_ip : string)
| LogCfConnectingIP (cf_ip result : string)
| LogXForwardedFor (x_forwarded result : string)
| LogXRealIP (x_real_ip result : string)
| LogDirect (client_ip result : string)
| LogNoIP.

Definition is_ipv6 (ip_str : string) : bool :=
  match Ipaddress.ip_address ip_str with
  | Some addr => Ipaddress.version addr =? 6
  | None => false
  end.

Definition simplify_ipv6 (ip_str : string) : string :=
  match Ipaddress.ip_address ip_str with
  | Some addr =>
      if Ipaddress.version addr =? 6 then
        if PyStr.startswith ip_str "::ffff:"
        then PyStr.replace "::ffff:" "" ip_str
        else Ipaddress.compressed addr
      else ip_str
  | None => ip_str
  end.

(** The stripped entries of a comma-separated header value. *)
Definition entries (ip_list : string) : list string :=
  map PyStr.strip (PyStr.split "," ip_list).

Definition extract_best_ip (ip_list : string) : string :=
  if PyStr.is_empty ip_list then "unknown"
  else
    let ips := entries ip_list in
    match List.find (fun ip => negb (PyStr.is_empty ip) && negb (is_ipv6 ip)) ips with
    | Some ip => ip
    | None =>
        match List.find (fun ip => negb (PyStr.is_empty ip)) ips with
        | Some ip => simplify_ipv6 ip
        | None => "unknown"
        end
    end.

(** The prefixes of the class E range 240.0.0.0/4. *)
Definition pseudo_ipv4_prefixes : list string :=
  [ "240."; "241."; "242."; "243."; "244."; "245."; "246."; "247.";
    "248."; "249."; "250."; "251."; "252."; "253."; "254."; "255." ].

Definition get_real_client_ip (req : request) : string * ip_log :=
  let cf_ipv6 := headers req !! "CF-Connecting-IPv6" in
  let cf_pseudo_ipv4 := headers req !! "CF-Pseudo-IPv4" in
  if PyStr.truthy cf_ipv6 then
    let cf_ipv6 := default EmptyString cf_ipv6 in
    let result := simplify_ipv6 cf_ipv6 in
    (result,
     LogCfConnectingIPv6 cf_ipv6 result
       (if PyStr.truthy cf_pseudo_ipv4 then cf_pseudo_ipv4 else None))
  else
    let cf_ip := headers req !! "CF-Connecting-IP" in
    if PyStr.truthy cf_ip then
      let cf_ip := default EmptyString cf_ip in
      let result := extract_best_ip cf_ip in
      if existsb (PyStr.startswith result) pseudo_ipv4_prefixes
      then (result, LogCfPseudoIPv4 cf_ip)
      else (result, LogCfConnectingIP cf_ip result)
    else
      let x_forwarded := headers req !! "X-Forwarded-For" in
      if PyStr.truthy x_forwarded then
        let x_forwarded := default EmptyString x_forwarded in
        let result := extract_best_ip x_forwarded in
        (result, LogXForwardedFor x_forwarded result)
      else
        let x_real_ip := headers req !! "X-Real-IP" in
        if PyStr.truthy x_real_ip then
          let x_real_ip := default EmptyString x_real_ip in
          let result := extract_best_ip x_real_ip in
          (result, LogXRealIP x_real_ip result)
        else
          let client_ip := remote_addr req in
          if PyStr.truthy client_ip then
            let client_ip := default EmptyString client_ip in
            let result := simplify_ipv6 client_ip in
            (result, LogDirect client_ip result)
          else ("unknown", LogNoIP).

(** The five sources in the order in which the resolver reads them. *)
Definition sources (req : request) : list (option string) :=
  [ headers req !! "CF-Connecting-IPv6";
    headers req !! "CF-Connecting-IP";
    headers req !! "X-Forwarded-For";
    headers req !! "X-Real-IP";
    remote_addr req ].

End ClientIP.

(** ** The resolver as a priority list

    The reading of the resolver that the theorems compare the code with:
    the sources are tried in order and the first one that is present and
    not empty answers alone. *)

Module ResolverSpec.

(** The first source at or after position [i] that is present and not
    empty, with its position. *)
Fixpoint first_present (i : nat) (srcs : list (option string))
    : option (nat * string) :=
  match srcs with
  | [] => None
  | src :: srcs' =>
      if PyStr.truthy src then Some (i, default EmptyString src)
      else first_present (S i) srcs'
  end.

(** What the source at position [i] answers for the value [v]: the two
    single-address sources are simplified, the three list headers go
    through the list logic. *)
Definition answer (i : nat) (v : string) : string :=
  match i with
  | 0%nat | 4%nat => ClientIP.simplify_ipv6 v
  | _ => ClientIP.extract_best_ip v
  end.

Definition resolve (srcs : list (option string)) : string :=
  match first_present 0 srcs with
  | Some (i, v) => answer i v
  | None => "unknown"
  end.

(** [x] is the first element of [l] that satisfies [P]. *)
Definition first_such {A : Type} (P : A -> Prop) (l : list A) (x : A) : Prop :=
  exists l1 l2, l = (l1 ++ x :: l2)%list /\ P x /\ Forall (fun y => ~ P y) l1.

End ResolverSpec.

(** ** Files, images and the libraries the application calls *)

(** The contents of a file. *)
Definition bytes : Type := list Byte.byte.

(** A pixel as it lands on an RGB canvas. *)
Definition color : Type := (Z * Z * Z)%type.

Definition white : color := (255, 255, 255).

(** A decoded Pillow image: its mode ('RGB', 'RGBA', 'L', 'P', ...), its
    size (width, height) and its pixels. *)
Record Image : Type := MkImage {
  mode : string;
  size : Z * Z;
  pixels : Z -> Z -> color
}.

(** The third-party calls of [app.py], one field per call.  [None] stands
    for a raised exception. *)
Class Platform : Type := {
  (** [werkzeug.utils.secure_filename] *)
  secure_filename : string -> string;
  (** [magic.from_file(path, mime=True)] on the contents at [path] *)
  magic_from_file : bytes -> option string;
  (** [Image.open] *)
  image_open : bytes -> option Image;
  (** [img.verify()] right after [Image.open]: [true] when it returns *)
  image_verify : bytes -> Image -> bool;
  (** the pixels of [img.convert(mode)] *)
  convert_pixels : Image -> string -> option (Z -> Z -> color);
  (** the pixels of [background.paste(img, mask=alpha)] *)
  paste_mask_pixels : Image -> Image -> option (Z -> Z -> color);
  (** [img.thumbnail(size, Image.Resampling.LANCZOS)], the image afterwards *)
  image_thumbnail : Image -> Z * Z -> option Image;
  (** the bytes written by [img.save(path, format, quality=, optimize=)] *)
  image_save : Image -> string -> Z -> bool -> option bytes;
  (** [hashlib.md5(data).hexdigest()] *)
  md5_hexdigest : bytes -> string;
  (** the offset of local time from UTC in seconds, for
      [datetime.fromtimestamp] *)
  utc_offset : Z
}.

(** [Image.new(mode, size, color)] *)
Definition image_new (m : string) (sz : Z * Z) (c : color) : Image :=
  MkImage m sz (fun _ _ => c).

(** Whether the pixel [(i, j)] lies in the box of the given size at [(x, y)]. *)
Definition in_box (x y : Z) (sz : Z * Z) (i j : Z) : bool :=
  (x <=? i) && (i <? x + fst sz) && (y <=? j) && (j <? y + snd sz).

(** [dst.paste(src, (x, y))]: the box of [src] at [(x, y)] is overwritten. *)
Definition image_paste (dst src : Image) (box : Z * Z) : Image :=
  let '(x, y) := box in
  MkImage (mode dst) (size dst)
    (fun i j =>
       if in_box x y (size src) i j then pixels src (i - x) (j - y)
       else pixels dst i j).

(** [img.convert(mode)] keeps the size. *)
Definition image_convert `{Platform} (img : Image) (m : string) : option Image :=
  MkImage m (size img) <$> convert_pixels img m.

(** ** The state the handlers act on *)

(** File system calls, in the order they are made. *)
Inductive fs_event : Type :=
| EvSave (original_filename file_path : string)
| EvValidate (file_path : string)
| EvRemove (file_path : string)
| EvThumbnail (thumbnail_path : string).

(** The two flat directories, the flashed messages and the calls so far. *)
Record World : Type := MkWorld {
  uploads : gmap string bytes;
  thumbnails : gmap string bytes;
  flashes : list string;
  trace : list fs_event
}.

Definition set_uploads (f : gmap string bytes -> gmap string bytes) (w : World) : World :=
  MkWorld (f (uploads w)) (thumbnails w) (flashes w) (trace w).

Definition set_thumbnails (f : gmap string bytes -> gmap string bytes) (w : World) : World :=
  MkWorld (uploads w) (f (thumbnails w)) (flashes w) (trace w).

(** [flash(msg)] *)
Definition flash (msg : string) (w : World) : World :=
  MkWorld (uploads w) (thumbnails w) (flashes w ++ [msg])%list (trace w).

Definition record (e : fs_event) (w : World) : World :=
  MkWorld (uploads w) (thumbnails w) (flashes w) (trace w ++ [e])%list.

(** ** File validator *)

Section Validator.
Context `{Platform}.

(** [validate_file_content]: nothing escapes the outer [try]. *)
Definition validate_file_content
    (dir : gmap string bytes) (file_path filename : string) : bool :=
  match dir !! file_path ≫= (fun data => pair data <$> magic_from_file data) with
  | None => false
  | Some (data, mime_type) =>
      if negb (bool_decide (mime_type ∈ ALLOWED_MIMETYPES)) then false
      else if PyStr.startswith mime_type "image/" then
        match image_open data with
        | Some img => image_verify data img
        | None => false
        end
      else if PyStr.startswith mime_type "video/" then true
      else false
  end.

(** [get_file_hash]; [read_fails] is an I/O error while reading. *)
Definition get_file_hash
    (dir : gmap string bytes) (file_path : string) (read_fails : bool)
    : option string :=
  if read_fails then None else md5_hexdigest <$> dir !! file_path.

End Validator.

(** ** Thumbnail generator *)

Section Thumbnail.
Context `{Platform}.

(** The colour-mode normalisation at the head of [create_thumbnail]. *)
Definition flatten (img : Image) : option Image :=
  if bool_decide (mode img ∈ ["RGBA"; "LA"; "P"]) then
    let background := image_new "RGB" (size img) white in
    img ← (if String.eqb (mode img) "P" then image_convert img "RGBA"
           else Some img);
    if bool_decide (mode img ∈ ["RGBA"; "LA"])
    then MkImage "RGB" (size background) <$> paste_mask_pixels background img
    else Some (image_paste background img (0, 0))
  else if negb (bool_decide (mode img ∈ ["RGB"; "L"]))
  then image_convert img "RGB"
  else Some img.

(** The square canvas with the resized image pasted at its centre. *)
Definition center_on_canvas (img : Image) : Image :=
  let thumb := image_new "RGB" THUMBNAIL_SIZE white in
  let x := (fst THUMBNAIL_SIZE - fst (size img)) `div` 2 in
  let y := (snd THUMBNAIL_SIZE - snd (size img)) `div` 2 in
  image_paste thumb img (x, y).

(** [create_thumbnail]: every exception is turned into [False]. *)
Definition create_thumbnail
    (w : World) (image_path thumbnail_path : string) : World * bool :=
  match data ← uploads w !! image_path;
        img ← image_open data;
        img ← flatten img;
        image_thumbnail img THUMBNAIL_SIZE with
  | None => (w, false)
  | Some img =>
      match image_save (center_on_canvas img) "JPEG" 85 true with
      | None => (w, false)
      | Some data =>
          (record (EvThumbnail thumbnail_path)
             (set_thumbnails (insert thumbnail_path data) w), true)
      end
  end.

End Thumbnail.

(** ** Upload handler *)

(** One entry of [request.files.getlist('files')]. *)
Record FileStorage : Type := MkFileStorage {
  fs_filename : string;
  fs_stream : bytes
}.

(** How [file.save] ends: it returns, or it raises and leaves nothing or a
    partly written file behind. *)
Inductive save_outcome : Type :=
| SaveReturns
| SaveRaises (partial : option bytes).

(** What the environment decides while one entry is processed: the value of
    [uuid.uuid4().hex], how [file.save] ends and whether reading the file
    back for hashing fails. *)
Record Chance : Type := MkChance {
  uuid4_hex : string;
  save_result : save_outcome;
  read_fails : bool
}.

Definition upload : Type := (FileStorage * Chance)%type.

(** The loop variables of [upload_files]. *)
Record loop_state : Type := MkLoop {
  world : World;
  uploaded_count : nat;
  failed_count : nat
}.

(** How the body of the [try] statement ends. *)
Inductive try_result : Type :=
| Uploaded
| Rejected
| Raised.

Inductive response : Type :=
| RedirectRequestUrl
| RedirectIndex.

(** [file and file.filename != '']: the entry is not an empty form field. *)
Definition is_present (u : upload) : bool := negb (PyStr.is_empty (fs_filename u.1)).

(** The entry passes the two checks made on its name and so reaches the
    [try] statement. *)
Definition reaches_save `{Platform} (u : upload) : bool :=
  is_present u && allowed_file (secure_filename (fs_filename u.1)).

Section Upload.
Context `{Platform}.

(** [f"thumb_{filename.rsplit('.', 1)[0]}.jpg"] *)
Definition thumbnail_name (filename : string) : string :=
  "thumb_" +:+ default EmptyString (PyStr.rsplit1 "." filename !! 0%nat) +:+ ".jpg".

(** [f"{uuid.uuid4().hex}_{original_filename}"] *)
Definition stored_name (u : upload) : string :=
  uuid4_hex u.2 +:+ "_" +:+ secure_filename (fs_filename u.1).

(** [os.remove]: [None] is the [FileNotFoundError] for a missing file. *)
Definition os_remove (w : World) (file_path : string) : option World :=
  match uploads w !! file_path with
  | Some _ => Some (record (EvRemove file_path) (set_uploads (delete file_path) w))
  | None => None
  end.

(** The body of the [try] statement for one entry. *)
Definition try_body
    (w : World) (u : upload) (original_filename filename : string)
    : World * try_result :=
  let file_path := filename in
  let w := record (EvSave original_filename file_path) w in
  match save_result u.2 with
  | SaveRaises partial =>
      (match partial with
       | Some data => set_uploads (insert file_path data) w
       | None => w
       end, Raised)
  | SaveReturns =>
      let w := set_uploads (insert file_path (fs_stream u.1)) w in
      let w := record (EvValidate file_path) w in
      if negb (validate_file_content (uploads w) file_path original_filename) then
        match os_remove w file_path with
        | None => (w, Raised)
        | Some w =>
            (flash ("Invalid or potentially dangerous file: " +:+ original_filename) w,
             Rejected)
        end
      else
        match get_file_hash (uploads w) file_path (read_fails u.2) with
        | None => (w, Raised)
        | Some _ =>
            match get_file_type filename with
            | None => (w, Raised)
            | Some file_type =>
                if String.eqb file_type "image"
                then ((create_thumbnail w file_path (thumbnail_name filename)).1, Uploaded)
                else (w, Uploaded)
            end
        end
  end.

(** One iteration of [for file in files]. *)
Definition process_file (st : loop_state) (u : upload) : loop_state :=
  if negb (is_present u) then st
  else
    let original_filename := secure_filename (fs_filename u.1) in
    if PyStr.is_empty original_filename
    then MkLoop (world st) (uploaded_count st) (S (failed_count st))
    else if negb (allowed_file original_filename)
    then MkLoop (flash ("File type not allowed: " +:+ original_filename) (world st))
                (uploaded_count st) (S (failed_count st))
    else
      let filename := stored_name u in
      match try_body (world st) u original_filename filename with
      | (w, Uploaded) => MkLoop w (S (uploaded_count st)) (failed_count st)
      | (w, Rejected) => MkLoop w (uploaded_count st) (S (failed_count st))
      | (w, Raised) =>
          let w := match os_remove w filename with
                   | Some w' => w'
                   | None => w
                   end in
          MkLoop (flash ("Error processing file: " +:+ original_filename) w)
                 (uploaded_count st) (S (failed_count st))
      end.

(** The [for] loop, from zero counts. *)
Definition upload_loop (w : World) (files : list upload) : loop_state :=
  fold_left process_file files (MkLoop w 0 0).

(** The two closing reports. *)
Definition report (st : loop_state) : World :=
  let w := world st in
  let w :=
    if (0 <? uploaded_count st)%nat
    then flash ("Successfully uploaded "
                  +:+ PyStr.format_d (Z.of_nat (uploaded_count st))
                  +:+ " file(s)!") w
    else w in
  if (0 <? failed_count st)%nat
  then flash (PyStr.format_d (Z.of_nat (failed_count st))
                +:+ " file(s) failed to upload due to validation errors.") w
  else w.

(** [upload_files].  The key 'files' is in [request.files] exactly when
    the list of its entries is not empty. *)
Definition upload_files (w : World) (files : list upload) : World * response :=
  match files with
  | [] => (flash "No files selected" w, RedirectRequestUrl)
  | _ =>
      if (MAX_FILES_PER_REQUEST <? length files)%nat
      then (flash ("Too many files. Maximum "
                     +:+ PyStr.format_d (Z.of_nat MAX_FILES_PER_REQUEST)
                     +:+ " files per upload.") w,
            RedirectRequestUrl)
      else (report (upload_loop w files), RedirectIndex)
  end.

End Upload.

(** ** Gallery lister *)

(** One name returned by [os.listdir(UPLOAD_FOLDER)] with the value of
    [os.path.getctime] for it, in whole seconds since the epoch. *)
Record dir_entry : Type := MkDirEntry {
  de_name : string;
  de_ctime : Z
}.

(** The dictionary built for each listed file. *)
Record file_info : Type := MkFileInfo {
  fi_name : string;
  fi_type : string;
  fi_upload_time : string;
  fi_has_thumbnail : bool;
  fi_thumbnail_name : option string
}.

Module Strftime.

(** A number in decimal, padded with zeros to [width] digits. *)
Definition zero_pad (width : nat) (n : Z) : string :=
  let s := PyStr.format_d n in
  string_of_list_ascii (repeat "0"%char (width - String.length s)) +:+ s.

(** The proleptic Gregorian date of a day number counted from 1970-01-01. *)
Definition civil_from_days (days : Z) : Z * Z * Z :=
  let z := days + 719468 in
  let era := z `div` 146097 in
  let doe := z - era * 146097 in
  let yoe := (doe - doe `div` 1460 + doe `div` 36524 - doe `div` 146096) `div` 365 in
  let doy := doe - (365 * yoe + yoe `div` 4 - yoe `div` 100) in
  let mp := (5 * doy + 2) `div` 153 in
  let d := doy - (153 * mp + 2) `div` 5 + 1 in
  let m := if mp <? 10 then mp + 3 else mp - 9 in
  (yoe + era * 400 + (if m <=? 2 then 1 else 0), m, d).

(** [datetime.fromtimestamp(t).strftime('%Y-%m-%d %H:%M')] in a zone at a
    fixed [offset] from UTC, for years of four digits. *)
Definition format_minute (offset t : Z) : string :=
  let minutes := (t + offset) `div` 60 in
  let '(y, m, d) := civil_from_days (minutes `div` 1440) in
  zero_pad 4 y +:+ "-" +:+ zero_pad 2 m +:+ "-" +:+ zero_pad 2 d +:+ " "
    +:+ zero_pad 2 ((minutes `mod` 1440) `div` 60) +:+ ":"
    +:+ zero_pad 2 (minutes `mod` 60).

End Strftime.

Section Gallery.
Context `{Platform}.

(** The body of the loop of [index] for one directory entry: the
    dictionaries it appends, [None] when it raises. *)
Definition index_entry
    (thumbs : gmap string bytes) (e : dir_entry) : option (list file_info) :=
  let filename := de_name e in
  if allowed_file filename then
    file_type ← get_file_type filename;
    let '(has_thumbnail, thumbnail_name) :=
      if String.eqb file_type "image"
      then (bool_decide (is_Some (thumbs !! thumbnail_name filename)),
            Some (thumbnail_name filename))
      else (false, None) in
    Some [MkFileInfo filename file_type
            (Strftime.format_minute utc_offset (de_ctime e))
            has_thumbnail thumbnail_name]
  else Some [].

(** Where [x] goes in a list already in descending order of
    [upload_time]: in front of the first element that is not greater. *)
Fixpoint insert_desc (x : file_info) (l : list file_info) : list file_info :=
  match l with
  | [] => [x]
  | y :: l' =>
      if String.ltb (fi_upload_time x) (fi_upload_time y)
      then y :: insert_desc x l'
      else x :: l
  end.

(** [files.sort(key=lambda x: x['upload_time'], reverse=True)]: a stable
    sort, equal keys keep the order they had. *)
Definition sort_recent_first (files : list file_info) : list file_info :=
  foldr insert_desc [] files.

(** [index]: the list handed to the template. *)
Definition index
    (listing : list dir_entry) (thumbs : gmap string bytes)
    : option (list file_info) :=
  files ← mapM (index_entry thumbs) listing;
  Some (sort_recent_first (concat files)).

End Gallery.

(** ** Response headers and the two file routes *)

(** [set_security_headers]: the [after_request] hook, on the headers of the
    response.  Assigning to a header replaces the value it had. *)
Definition set_security_headers (response_headers : gmap string string)
    : gmap string string :=
  <[ "Content-Security-Policy" :=
       "default-src 'self'; script-src 'self' 'unsafe-inline'; style-src 'self' 'unsafe-inline'; img-src 'self' data:; media-src 'self';" ]>
    (<[ "X-XSS-Protection" := "1; mode=block" ]>
       (<[ "X-Frame-Options" := "DENY" ]>
          (<[ "X-Content-Type-Options" := "nosniff" ]> response_headers))).

(** What a file route answers: the contents of a file or status 404. *)
Inductive served : Type :=
| NotFound
| FileContents (data : bytes).

(** [send_from_directory] on a flat directory: 404 for a missing file. *)
Definition send_from_directory (dir : gmap string bytes) (filename : string) : served :=
  match dir !! filename with
  | Some data => FileContents data
  | None => NotFound
  end.

Section Routes.
Context `{Platform}.

(** [uploaded_file]: the route [/uploads/<filename>]. *)
Definition uploaded_file (w : World) (filename : string) : served :=
  let filename := secure_filename filename in
  if PyStr.is_empty filename then NotFound
  else send_from_directory (uploads w) filename.

(** [thumbnail_file]: the route [/thumbnails/<filename>]. *)
Definition thumbnail_file (w : World) (filename : string) : served :=
  let filename := secure_filename filename in
  if PyStr.is_empty filename then NotFound
  else send_from_directory (thumbnails w) filename.

End Routes.

(** ** A platform small enough to run

    The handlers are run on concrete requests with the stand-ins below:
    [secure_filename] as werkzeug computes it on ASCII names on POSIX,
    sniffing by a few magic numbers, and an image decoder that reads the
    width and height from four bytes after the PNG signature. *)

Module TestPlatform.

Definition is_safe_char (c : ascii) : bool :=
  let n := N_of_ascii c in
  (((48 <=? n) && (n <=? 57)) || ((65 <=? n) && (n <=? 90))
   || ((97 <=? n) && (n <=? 122)) || (n =? 95) || (n =? 46) || (n =? 45))%N.

Definition is_dot_or_underscore (c : ascii) : bool :=
  let n := N_of_ascii c in ((n =? 46) || (n =? 95))%N.

(** [s.split()] once the path separator is white space too: the maximal
    runs without white space. *)
Fixpoint words (cur : string) (s : string) : list string :=
  match s with
  | EmptyString => if PyStr.is_empty cur then [] else [cur]
  | String c s' =>
      if PyStr.is_space c || Ascii.eqb c "/"
      then if PyStr.is_empty cur then words EmptyString s'
           else cur :: words EmptyString s'
      else words (cur +:+ String c EmptyString) s'
  end.

Fixpoint filter_chars (p : ascii -> bool) (s : string) : string :=
  match s with
  | EmptyString => EmptyString
  | String c s' => if p c then String c (filter_chars p s') else filter_chars p s'
  end.

Fixpoint lstrip_chars (p : ascii -> bool) (s : string) : string :=
  match s with
  | EmptyString => EmptyString
  | String c s' => if p c then lstrip_chars p s' else s
  end.

Fixpoint rstrip_chars (p : ascii -> bool) (s : string) : string :=
  match s with
  | EmptyString => EmptyString
  | String c s' =>
      let r := rstrip_chars p s' in
      if p c && PyStr.is_empty r then EmptyString else String c r
  end.

Definition secure_filename_ascii (filename : string) : string :=
  let ascii_only := filter_chars (fun c => (N_of_ascii c <? 128)%N) filename in
  let joined := PyStr.join "_" (words EmptyString ascii_only) in
  rstrip_chars is_dot_or_underscore
    (lstrip_chars is_dot_or_underscore (filter_chars is_safe_char joined)).

Definition png_signature : bytes :=
  [Byte.x89; Byte.x50; Byte.x4e; Byte.x47; Byte.x0d; Byte.x0a; Byte.x1a; Byte.x0a].

Fixpoint has_prefix (p data : bytes) : bool :=
  match p, data with
  | [], _ => true
  | _ :: _, [] => false
  | a :: p', b :: data' => Byte.eqb a b && has_prefix p' data'
  end.

Definition sniff (data : bytes) : option string :=
  if has_prefix png_signature data then Some "image/png"
  else if has_prefix [Byte.xff; Byte.xd8; Byte.xff] data then Some "image/jpeg"
  else if has_prefix [Byte.x47; Byte.x49; Byte.x46; Byte.x38] data then Some "image/gif"
  else if has_prefix [Byte.x1a; Byte.x45; Byte.xdf; Byte.xa3] data then Some "video/x-matroska"
  else if has_prefix [Byte.x4d; Byte.x5a] data then Some "application/x-dosexec"
  else Some "application/octet-stream".

Definition byte_value (b : Byte.byte) : Z := Z.of_N (Byte.to_N b).

Definition decode (data : bytes) : option Image :=
  if has_prefix png_signature data then
    match drop 8 data with
    | wh :: wl :: hh :: hl :: _ =>
        Some (MkImage "RGB"
                (256 * byte_value wh + byte_value wl,
                 256 * byte_value hh + byte_value hl)
                (fun _ _ => (0, 0, 0)))
    | _ => None
    end
  else None.

(** Floor or ceiling of [num / den], whichever has the smaller [key]
    (the floor on a tie), and at least 1.  A key is a fraction. *)
Definition round_aspect (num den : Z) (key : Z -> Z * Z) : Z :=
  let lo := num `div` den in
  let hi := (num + den - 1) `div` den in
  let '(a, b) := key lo in
  let '(c, d) := key hi in
  Z.max (if c * b <? a * d then hi else lo) 1.

(** The size chosen by [Image.thumbnail], computed on exact fractions. *)
Definition thumbnail_size (sz box : Z * Z) : Z * Z :=
  let '(width, height) := sz in
  let '(x, y) := box in
  if (width <=? x) && (height <=? y) then sz
  else if width * y <=? x * height
  then (round_aspect (y * width) height
          (fun n => (Z.abs (width * y - n * height), 1)), y)
  else (x, round_aspect (x * height) width
             (fun n => if n =? 0 then (0, 1)
                       else (Z.abs (width * n - x * height), n))).

Definition thumbnail_exact (img : Image) (box : Z * Z) : option Image :=
  let '(w, h) := size img in
  if (0 <? w) && (0 <? h) && (0 <? fst box) && (0 <? snd box) then
    let '(w', h') := thumbnail_size (w, h) box in
    Some (MkImage (mode img) (w', h')
            (fun i j => pixels img (i * w `div` w') (j * h `div` h')))
  else None.

Definition encode (img : Image) (format : string) (quality : Z) (optimize : bool)
    : option bytes :=
  if String.eqb format "JPEG"
  then Some [Byte.xff; Byte.xd8; Byte.xff; Byte.xd9]
  else None.

#[export] Instance platform : Platform := {|
  secure_filename := secure_filename_ascii;
  magic_from_file := sniff;
  image_open := decode;
  image_verify := fun _ _ => true;
  convert_pixels := fun img _ => Some (pixels img);
  paste_mask_pixels := fun _ img => Some (pixels img);
  image_thumbnail := thumbnail_exact;
  image_save := encode;
  md5_hexdigest := fun _ => "d41d8cd98f00b204e9800998ecf8427e";
  utc_offset := 0
|}.

Definition empty_world : World := MkWorld ∅ ∅ [] [].

(** A well-formed picture of 600 by 400 pixels. *)
Definition picture : bytes :=
  (png_signature ++ [Byte.x02; Byte.x58; Byte.x01; Byte.x90])%list.

(** A Windows executable. *)
Definition executable : bytes := [Byte.x4d; Byte.x5a; Byte.x90; Byte.x00].

(** An entry for which nothing goes wrong in the environment. *)
Definition calm (filename : string) (data : bytes) (uuid : string) : upload :=
  (MkFileStorage filename data, MkChance uuid SaveReturns false).

End TestPlatform.

(* ====================================================================== *)
(** * Theorems *)
(* ====================================================================== *)

(** ** The model at work *)

Example allowed_file_upper : allowed_file "IMG_0001.JPG" = true.
Proof. vm_compute. reflexivity. Qed.

Example allowed_file_nodot : allowed_file "README" = false.
Proof. vm_compute. reflexivity. Qed.

Example allowed_file_last_dot : allowed_file "photo.png.exe" = false.
Proof. vm_compute. reflexivity. Qed.

Example get_file_type_nodot : get_file_type "README" = None.
Proof. vm_compute. reflexivity. Qed.

Example get_file_type_unknown : get_file_type "notes.txt" = Some "unknown".
Proof. vm_compute. reflexivity. Qed.

Example get_file_type_video : get_file_type "clip.final.MOV" = Some "video".
Proof. vm_compute. reflexivity. Qed.

Example ip_v4 :
  Ipaddress.ip_address "203.0.113.9" = Some (Ipaddress.IPv4Address 3405803785).
Proof. vm_compute. reflexivity. Qed.

Example ip_v4_leading_zero : Ipaddress.ip_address "203.0.113.09" = None.
Proof. vm_compute. reflexivity. Qed.

Example ip_v6 : Ipaddress.ip_address "2001:db8::1"
  = Some (Ipaddress.IPv6Address 42540766411282592856903984951653826561 None).
Proof. vm_compute. reflexivity. Qed.

Example ip_v6_mapped : ClientIP.simplify_ipv6 "::ffff:203.0.113.5" = "203.0.113.5".
Proof. vm_compute. reflexivity. Qed.

Example ip_v6_compressed :
  ClientIP.simplify_ipv6 "2001:0DB8:0:0:1:0:0:1" = "2001:db8::1:0:0:1".
Proof. vm_compute. reflexivity. Qed.

Example ip_v6_all_zero : ClientIP.simplify_ipv6 "0:0:0:0:0:0:0:0" = "::".
Proof. vm_compute. reflexivity. Qed.

Example ip_v6_scope : ClientIP.simplify_ipv6 "FE80:0::1%eth0" = "fe80::1%eth0".
Proof. vm_compute. reflexivity. Qed.

Example ip_garbage : Ipaddress.ip_address "not-an-ip" = None.
Proof. vm_compute. reflexivity. Qed.

Example ip_two_double_colons : Ipaddress.ip_address "1::2::3" = None.
Proof. vm_compute. reflexivity. Qed.

Example secure_filename_traversal :
  TestPlatform.secure_filename_ascii "../../etc/passwd" = "etc_passwd".
Proof. vm_compute. reflexivity. Qed.

Example strftime_leap_day :
  Strftime.format_minute 0 951868799 = "2000-02-29 23:59".
Proof. vm_compute. reflexivity. Qed.

(** ** Extensions and media kinds *)

Lemma rcut_None (sep : ascii) (s : string) :
  PyStr.rcut sep s = None <-> PyStr.contains sep s = false.
Proof.
  induction s as [|c s IH]; simpl; [tauto|].
  rewrite (Ascii.eqb_sym sep c).
  destruct (PyStr.rcut sep s) as [[a b]|].
  - destruct IH as [_ IH]. split; [discriminate|].
    intros Hc. apply orb_false_elim in Hc as [_ Hc]. specialize (IH Hc). discriminate.
  - destruct IH as [IH _]. rewrite (IH eq_refl), orb_false_r.
    destruct (Ascii.eqb c sep); split; congruence.
Qed.

Lemma rsplit1_second (s : string) :
  PyStr.contains "." s = true <-> is_Some (PyStr.rsplit1 "." s !! 1%nat).
Proof.
  unfold PyStr.rsplit1. pose proof (rcut_None "." s) as Hcut.
  destruct (PyStr.rcut "." s) as [[a b]|]; simpl.
  - split; [eauto|]. intros _. destruct (PyStr.contains "." s); [done|].
    destruct Hcut as [_ Hcut]. specialize (Hcut eq_refl). discriminate.
  - destruct Hcut as [Hcut _]. rewrite (Hcut eq_refl).
    split; [discriminate|]. intros [x Hx]. discriminate.
Qed.

Lemma allowed_file_inv (filename : string) :
  allowed_file filename = true ->
  PyStr.contains "." filename = true
  /\ exists ext, PyStr.rsplit1 "." filename !! 1%nat = Some ext
                 /\ PyStr.lower ext ∈ ALLOWED_EXTENSIONS.
Proof.
  unfold allowed_file. intros Hok. apply andb_prop in Hok as [Hdot Hext].
  split; [exact Hdot|].
  destruct (PyStr.rsplit1 "." filename !! 1%nat) as [ext|]; [|discriminate].
  exists ext. split; [reflexivity|]. by apply bool_decide_eq_true in Hext.
Qed.

Lemma allowed_extension_cases (extension : string) :
  extension ∈ ALLOWED_EXTENSIONS ->
  In extension ["png"; "jpg"; "jpeg"; "gif"; "mp4"; "mov"; "avi"; "mkv"; "webm"].
Proof.
  unfold ALLOWED_EXTENSIONS. rewrite !elem_of_union, !elem_of_singleton.
  simpl. intuition auto.
Qed.

Lemma get_file_type_allowed (filename : string) :
  allowed_file filename = true ->
  get_file_type filename = Some "image" \/ get_file_type filename = Some "video".
Proof.
  intros Hok. apply allowed_file_inv in Hok as (_ & ext & Hext & Hin).
  unfold get_file_type. rewrite Hext. simpl.
  apply allowed_extension_cases in Hin. simpl in Hin.
  repeat (destruct Hin as [<-|Hin]; [vm_compute; auto|]). destruct Hin.
Qed.

(** C10. Every name accepted by [allowed_file] contains a dot, so the
    extension lookup of [get_file_type] is defined on it, and its kind is
    'image' or 'video'; 'unknown' and the failing lookup can only occur for
    names that [allowed_file] rejects. *)
Theorem allowed_file_has_known_type (filename : string) :
  allowed_file filename = true ->
  PyStr.contains "." filename = true
  /\ (get_file_type filename = Some "image" \/ get_file_type filename = Some "video")
  /\ get_file_type filename <> Some "unknown"
  /\ get_file_type filename <> None.
Proof.
  intros Hok. split; [by apply allowed_file_inv|].
  destruct (get_file_type_allowed _ Hok) as [Hk|Hk]; rewrite Hk;
    repeat split; auto; discriminate.
Qed.

Lemma allowed_file_has_known_type_witness :
  allowed_file "IMG_0001.JPG" = true
  /\ PyStr.contains "." "IMG_0001.JPG" = true
  /\ (get_file_type "IMG_0001.JPG" = Some "image"
      \/ get_file_type "IMG_0001.JPG" = Some "video")
  /\ get_file_type "IMG_0001.JPG" <> Some "unknown"
  /\ get_file_type "IMG_0001.JPG" <> None.
Proof.
  split; [vm_compute; reflexivity|].
  apply (allowed_file_has_known_type "IMG_0001.JPG"). vm_compute. reflexivity.
Defined.

(** The other two outcomes occur only on names that [allowed_file] rejects. *)
Lemma unknown_type_only_when_rejected (filename : string) :
  get_file_type filename = Some "unknown" \/ get_file_type filename = None ->
  allowed_file filename = false.
Proof.
  intros Hk. destruct (allowed_file filename) eqn:Hok; [|reflexivity].
  destruct (get_file_type_allowed _ Hok) as [Hi|Hv], Hk as [Hu|Hn]; congruence.
Qed.

(** ** File validator *)

Lemma allowed_mimetype_cases (mime_type : string) :
  mime_type ∈ ALLOWED_MIMETYPES ->
  In mime_type
     ["image/png"; "image/jpeg"; "image/jpg"; "image/gif"; "video/mp4";
      "video/quicktime"; "video/x-msvideo"; "video/x-matroska"; "video/webm"].
Proof.
  unfold ALLOWED_MIMETYPES. rewrite !elem_of_union, !elem_of_singleton.
  simpl. intuition auto.
Qed.

(** Every allowed MIME type is an image type or a video type. *)
Lemma allowed_mimetype_kind (mime_type : string) :
  mime_type ∈ ALLOWED_MIMETYPES ->
  PyStr.startswith mime_type "image/" = true
  \/ (PyStr.startswith mime_type "image/" = false
      /\ PyStr.startswith mime_type "video/" = true).
Proof.
  intros Hin. apply allowed_mimetype_cases in Hin. simpl in Hin.
  repeat (destruct Hin as [<-|Hin]; [vm_compute; auto|]). destruct Hin.
Qed.

Lemma prefix_cons (a b : ascii) (p s : string) :
  String.prefix (String a p) (String b s)
  = if ascii_dec a b then String.prefix p s else false.
Proof. reflexivity. Qed.

Lemma image_prefix_not_video (mime_type : string) :
  PyStr.startswith mime_type "video/" = true ->
  PyStr.startswith mime_type "image/" = false.
Proof.
  unfold PyStr.startswith. destruct mime_type as [|c s]; [done|].
  rewrite !prefix_cons.
  destruct (ascii_dec "v" c) as [<-|]; [|done]. intros _. reflexivity.
Qed.

Section ValidatorFacts.
Context `{Platform}.

Lemma validate_file_content_unfold dir file_path filename data mime_type :
  dir !! file_path = Some data ->
  magic_from_file data = Some mime_type ->
  validate_file_content dir file_path filename =
    if negb (bool_decide (mime_type ∈ ALLOWED_MIMETYPES)) then false
    else if PyStr.startswith mime_type "image/" then
      match image_open data with
      | Some img => image_verify data img
      | None => false
      end
    else if PyStr.startswith mime_type "video/" then true
    else false.
Proof.
  intros Hdata Hmime. unfold validate_file_content.
  rewrite Hdata. simpl. rewrite Hmime. reflexivity.
Qed.

Lemma validate_file_content_true dir file_path filename :
  validate_file_content dir file_path filename = true <->
  exists data mime_type,
    dir !! file_path = Some data
    /\ magic_from_file data = Some mime_type
    /\ mime_type ∈ ALLOWED_MIMETYPES
    /\ (PyStr.startswith mime_type "image/" = true ->
        exists img, image_open data = Some img /\ image_verify data img = true).
Proof.
  split.
  - intros Hv. destruct (dir !! file_path) as [data|] eqn:Hdata;
      [|unfold validate_file_content in Hv; rewrite Hdata in Hv; discriminate].
    destruct (magic_from_file data) as [mime_type|] eqn:Hmime;
      [|unfold validate_file_content in Hv; rewrite Hdata in Hv; simpl in Hv;
        rewrite Hmime in Hv; discriminate].
    rewrite (validate_file_content_unfold _ _ _ _ _ Hdata Hmime) in Hv.
    exists data, mime_type. repeat split; auto.
    + destruct (bool_decide (mime_type ∈ ALLOWED_MIMETYPES)) eqn:Hin;
        [by apply bool_decide_eq_true in Hin | discriminate].
    + intros Himg. rewrite Himg in Hv.
      destruct (bool_decide (mime_type ∈ ALLOWED_MIMETYPES)); [|discriminate].
      simpl in Hv. destruct (image_open data) as [img|]; [|discriminate]. eauto.
  - intros (data & mime_type & Hdata & Hmime & Hin & Himg).
    rewrite (validate_file_content_unfold _ _ _ _ _ Hdata Hmime).
    rewrite (bool_decide_eq_true_2 _ Hin). simpl.
    destruct (allowed_mimetype_kind _ Hin) as [Hi|[Hi Hv]]; rewrite Hi.
    + destruct (Himg Hi) as (img & -> & ->). reflexivity.
    + rewrite Hv. reflexivity.
Qed.

End ValidatorFacts.

(** C1. [validate_file_content] passes exactly when the sniffed MIME type of
    the bytes of the file is allowed and, for an image type, the image opens
    and verifies; a video type passes on the MIME check alone; and a failure
    to sniff or to decode (an exception in the code) gives [false]. *)
Theorem validate_file_content_spec
    `{Platform} (dir : gmap string bytes) (file_path filename : string) :
  (validate_file_content dir file_path filename = true <->
     exists data mime_type,
       dir !! file_path = Some data
       /\ magic_from_file data = Some mime_type
       /\ mime_type ∈ ALLOWED_MIMETYPES
       /\ (PyStr.startswith mime_type "image/" = true ->
           exists img, image_open data = Some img /\ image_verify data img = true))
  /\ (forall data mime_type,
        dir !! file_path = Some data ->
        magic_from_file data = Some mime_type ->
        mime_type ∈ ALLOWED_MIMETYPES ->
        PyStr.startswith mime_type "video/" = true ->
        validate_file_content dir file_path filename = true)
  /\ (dir !! file_path = None ->
      validate_file_content dir file_path filename = false)
  /\ (forall data,
        dir !! file_path = Some data ->
        magic_from_file data = None ->
        validate_file_content dir file_path filename = false)
  /\ (forall data mime_type,
        dir !! file_path = Some data ->
        magic_from_file data = Some mime_type ->
        PyStr.startswith mime_type "image/" = true ->
        image_open data = None ->
        validate_file_content dir file_path filename = false).
Proof.
  split; [apply validate_file_content_true|]. repeat split.
  - intros data mime_type Hdata Hmime Hin Hvideo.
    apply validate_file_content_true. exists data, mime_type.
    repeat split; auto. intros Himg.
    rewrite (image_prefix_not_video _ Hvideo) in Himg. discriminate.
  - intros Hdata. unfold validate_file_content. rewrite Hdata. reflexivity.
  - intros data Hdata Hmime. unfold validate_file_content.
    rewrite Hdata. simpl. rewrite Hmime. reflexivity.
  - intros data mime_type Hdata Hmime Himg Hopen.
    rewrite (validate_file_content_unfold _ _ _ _ _ Hdata Hmime), Himg, Hopen.
    by destruct (bool_decide _).
Qed.

(** On the test platform: a picture passes, an executable named like a
    picture does not. *)
Lemma validate_file_content_spec_witness :
  validate_file_content (H := TestPlatform.platform)
    {[ "0a_a.png" := TestPlatform.picture ]} "0a_a.png" "a.png" = true
  /\ validate_file_content (H := TestPlatform.platform)
       {[ "0b_b.png" := TestPlatform.executable ]} "0b_b.png" "b.png" = false.
Proof.
  split.
  - apply (proj1 (validate_file_content_spec (H := TestPlatform.platform)
                    {[ "0a_a.png" := TestPlatform.picture ]} "0a_a.png" "a.png")).
    exists TestPlatform.picture, "image/png".
    split; [vm_compute; reflexivity|].
    split; [vm_compute; reflexivity|].
    split; [unfold ALLOWED_MIMETYPES; rewrite !elem_of_union, !elem_of_singleton; tauto|].
    intros _. eexists. split; vm_compute; reflexivity.
  - vm_compute. reflexivity.
Defined.

(** ** The cap on the number of files *)

(** C3. A request with more than ten entries is turned away before any
    entry is looked at: nothing is saved, validated or removed, both
    directories are as before, and the only effect is one flashed message. *)
Theorem too_many_files_rejected `{Platform} (w : World) (files : list upload) :
  (MAX_FILES_PER_REQUEST < length files)%nat ->
  upload_files w files
  = (flash "Too many files. Maximum 10 files per upload." w, RedirectRequestUrl)
  /\ uploads (upload_files w files).1 = uploads w
  /\ thumbnails (upload_files w files).1 = thumbnails w
  /\ trace (upload_files w files).1 = trace w.
Proof.
  intros Hlen.
  assert (upload_files w files
          = (flash "Too many files. Maximum 10 files per upload." w,
             RedirectRequestUrl)) as ->.
  { unfold upload_files. destruct files as [|u files]; [simpl in Hlen; lia|].
    apply Nat.ltb_lt in Hlen. rewrite Hlen. reflexivity. }
  repeat split.
Qed.

Lemma too_many_files_rejected_witness :
  let files := repeat (TestPlatform.calm "a.png" TestPlatform.picture "00") 11 in
  (MAX_FILES_PER_REQUEST < length files)%nat
  /\ uploads (upload_files (H := TestPlatform.platform)
                TestPlatform.empty_world files).1 = ∅
  /\ trace (upload_files (H := TestPlatform.platform)
              TestPlatform.empty_world files).1 = [].
Proof.
  split; [vm_compute; lia|].
  destruct (too_many_files_rejected (H := TestPlatform.platform)
              TestPlatform.empty_world
              (repeat (TestPlatform.calm "a.png" TestPlatform.picture "00") 11))
    as (_ & Hup & _ & Htr); [vm_compute; lia|].
  split; [exact Hup | exact Htr].
Defined.

(** ** Client IP resolver *)

(** C8. With no CDN header and [X-Forwarded-For: 2001:db8::1, 203.0.113.9]
    the resolver answers 203.0.113.9: the IPv4 entry wins over the IPv6
    entry in front of it. *)
Theorem forwarded_for_prefers_ipv4 (req : ClientIP.request) :
  ClientIP.headers req !! "CF-Connecting-IPv6" = None ->
  ClientIP.headers req !! "CF-Connecting-IP" = None ->
  ClientIP.headers req !! "X-Forwarded-For" = Some "2001:db8::1, 203.0.113.9" ->
  (ClientIP.get_real_client_ip req).1 = "203.0.113.9".
Proof.
  intros H6 H4 Hx. unfold ClientIP.get_real_client_ip.
  rewrite H6, H4, Hx. vm_compute. reflexivity.
Qed.

Lemma forwarded_for_prefers_ipv4_witness :
  (ClientIP.get_real_client_ip
     (ClientIP.Request {[ "X-Forwarded-For" := "2001:db8::1, 203.0.113.9" ]}
        (Some "198.51.100.7"))).1 = "203.0.113.9".
Proof.
  apply forwarded_for_prefers_ipv4; vm_compute; reflexivity.
Defined.

(** ** The priority order of the resolver *)

Section ResolverFacts.
Import ClientIP ResolverSpec.

Lemma truthy_Some (o : option string) :
  PyStr.truthy o = true -> o = Some (default EmptyString o) /\ default EmptyString o <> "".
Proof. destruct o as [[|c s]|]; simpl; intros; try discriminate; split; congruence. Qed.

Lemma is_empty_true (s : string) : PyStr.is_empty s = true <-> s = "".
Proof. destruct s; simpl; split; congruence. Qed.

Lemma is_empty_false (s : string) : PyStr.is_empty s = false <-> s <> "".
Proof. destruct s; simpl; split; congruence. Qed.

(** The code reads the sources in the order of [sources], and the first
    one that is present and not empty gives the answer. *)
Lemma get_real_client_ip_resolve (req : request) :
  (get_real_client_ip req).1 = resolve (sources req).
Proof.
  unfold get_real_client_ip, resolve, sources. simpl.
  destruct (PyStr.truthy (headers req !! "CF-Connecting-IPv6")); [reflexivity|].
  destruct (PyStr.truthy (headers req !! "CF-Connecting-IP")).
  { simpl. by case_match. }
  destruct (PyStr.truthy (headers req !! "X-Forwarded-For")); [reflexivity|].
  destruct (PyStr.truthy (headers req !! "X-Real-IP")); [reflexivity|].
  destruct (PyStr.truthy (remote_addr req)); reflexivity.
Qed.

Lemma find_first_such {A : Type} (p : A -> bool) (l : list A) (x : A) :
  first_such (fun y => p y = true) l x -> List.find p l = Some x.
Proof.
  intros (l1 & l2 & -> & Hx & Hl1).
  induction Hl1 as [|y l1 Hy _ IH]; simpl.
  - by rewrite Hx.
  - destruct (p y); [congruence | exact IH].
Qed.

Lemma find_none_all {A : Type} (p : A -> bool) (l : list A) :
  Forall (fun y => p y = false) l -> List.find p l = None.
Proof. induction 1 as [|y l Hy _ IH]; simpl; [done|]. by rewrite Hy. Qed.

Lemma first_such_impl {A : Type} (P Q : A -> Prop) (l : list A) (x : A) :
  (forall y, P y <-> Q y) -> first_such P l x -> first_such Q l x.
Proof.
  intros HPQ (l1 & l2 & -> & Hx & Hl1). exists l1, l2.
  split; [reflexivity|]. split; [by apply HPQ|].
  eapply Forall_impl; [exact Hl1|]. intros y Hy HQ. by apply Hy, HPQ.
Qed.

(** The list logic: the first entry that is not empty and not a valid
    IPv6 address is returned as it stands. *)
Lemma extract_best_ip_first_non_ipv6 (ip_list ip : string) :
  first_such (fun e => e <> "" /\ is_ipv6 e = false) (entries ip_list) ip ->
  extract_best_ip ip_list = ip.
Proof.
  intros Hfirst. unfold extract_best_ip.
  destruct (PyStr.is_empty ip_list) eqn:Hempty.
  { apply is_empty_true in Hempty as ->.
    destruct Hfirst as (l1 & l2 & Hl & [Hne Hv] & Hl1).
    unfold entries in Hl. simpl in Hl.
    destruct l1 as [|? [|? ?]]; simplify_eq/=; congruence. }
  erewrite find_first_such; [reflexivity|].
  eapply first_such_impl; [|exact Hfirst].
  intros y. rewrite andb_true_iff, !negb_true_iff, is_empty_false. tauto.
Qed.

(** Without such an entry, the first entry that is not empty is returned
    simplified. *)
Lemma extract_best_ip_first_ipv6 (ip_list ip : string) :
  Forall (fun e => e = "" \/ is_ipv6 e = true) (entries ip_list) ->
  first_such (fun e => e <> "") (entries ip_list) ip ->
  extract_best_ip ip_list = simplify_ipv6 ip.
Proof.
  intros Hall Hfirst. unfold extract_best_ip.
  destruct (PyStr.is_empty ip_list) eqn:Hempty.
  { apply is_empty_true in Hempty as ->.
    destruct Hfirst as (l1 & l2 & Hl & Hne & Hl1).
    unfold entries in Hl. simpl in Hl.
    destruct l1 as [|? [|? ?]]; simplify_eq/=; congruence. }
  rewrite find_none_all.
  - erewrite find_first_such; [reflexivity|].
    eapply first_such_impl; [|exact Hfirst].
    intros y. rewrite negb_true_iff, is_empty_false. tauto.
  - eapply Forall_impl; [exact Hall|]. intros y [->|Hy]; [reflexivity|].
    rewrite Hy. apply andb_false_r.
Qed.

(** A value whose entries are all empty gives 'unknown'. *)
Lemma extract_best_ip_all_empty (ip_list : string) :
  Forall (fun e => e = "") (entries ip_list) ->
  extract_best_ip ip_list = "unknown".
Proof.
  intros Hall. unfold extract_best_ip.
  destruct (PyStr.is_empty ip_list); [reflexivity|].
  rewrite !find_none_all; [reflexivity| |];
    (eapply Forall_impl; [exact Hall|]); by intros y ->.
Qed.

Lemma ipv4_is_not_ipv6 (ip : string) (n : Z) :
  Ipaddress.ip_address ip = Some (Ipaddress.IPv4Address n) ->
  ip <> "" /\ is_ipv6 ip = false.
Proof.
  intros Hip. split; [by intros ->|]. unfold is_ipv6. by rewrite Hip.
Qed.

Lemma unparseable_is_not_ipv6 (ip : string) :
  Ipaddress.ip_address ip = None -> is_ipv6 ip = false.
Proof. intros Hip. unfold is_ipv6. by rewrite Hip. Qed.

Lemma first_present_None (i : nat) (srcs : list (option string)) :
  Forall (fun src => PyStr.truthy src = false) srcs ->
  first_present i srcs = None.
Proof.
  intros Hall. revert i. induction Hall as [|src srcs Hsrc _ IH]; intros i; simpl;
    [reflexivity|]. rewrite Hsrc. apply IH.
Qed.

(** The answer depends on the sources up to the first present one only. *)
Lemma first_present_prefix (i n : nat) (srcs1 srcs2 : list (option string)) (v : string) :
  srcs1 !! n = Some (Some v) -> v <> "" ->
  take (S n) srcs1 = take (S n) srcs2 ->
  first_present i srcs1 = first_present i srcs2.
Proof.
  revert i n srcs2. induction srcs1 as [|src srcs1 IH]; intros i n srcs2 Hn Hv Htake;
    [discriminate|].
  destruct srcs2 as [|src2 srcs2]; [discriminate|].
  simpl in Htake. injection Htake as <- Htake. simpl.
  destruct (PyStr.truthy src) eqn:Hsrc; [reflexivity|].
  destruct n as [|n]; simpl in Hn.
  - injection Hn as ->. destruct v; simpl in Hsrc; congruence.
  - eapply IH; eauto.
Qed.

End ResolverFacts.

Example pseudo_ipv4_is_returned :
  ClientIP.get_real_client_ip
    (ClientIP.Request {[ "CF-Connecting-IP" := "240.16.0.1" ]} (Some "198.51.100.7"))
  = ("240.16.0.1", ClientIP.LogCfPseudoIPv4 "240.16.0.1").
Proof. vm_compute. reflexivity. Qed.

Example ipv6_header_comes_first :
  ClientIP.get_real_client_ip
    (ClientIP.Request
       {[ "CF-Connecting-IPv6" := "2001:0db8:0:0:0:0:0:1";
          "CF-Connecting-IP" := "240.16.0.1";
          "CF-Pseudo-IPv4" := "240.16.0.1" ]} None)
  = ("2001:db8::1",
     ClientIP.LogCfConnectingIPv6 "2001:0db8:0:0:0:0:0:1" "2001:db8::1"
       (Some "240.16.0.1")).
Proof. vm_compute. reflexivity. Qed.

(** C5, as the code has it. The sources are read in the order
    CF-Connecting-IPv6, CF-Connecting-IP, X-Forwarded-For, X-Real-IP, socket
    address, and the first that is present and not empty answers alone. The
    two single addresses are simplified. A list header gives its first
    entry that is not empty and not a valid IPv6 address, as it stands (so
    an IPv4 address, of class E or not, but an unparseable entry as well);
    without one, its first entry that is not empty, simplified; and
    'unknown' when all its entries are empty. 'unknown' is also the answer
    when no source is present. *)
Theorem resolver_priority_order (req : ClientIP.request) (ip_list : string) :
  (ClientIP.get_real_client_ip req).1 = ResolverSpec.resolve (ClientIP.sources req)
  /\ (Forall (fun src => PyStr.truthy src = false) (ClientIP.sources req) ->
      (ClientIP.get_real_client_ip req).1 = "unknown")
  /\ (forall ip,
        ResolverSpec.first_such
          (fun e => e <> "" /\ ClientIP.is_ipv6 e = false) (ClientIP.entries ip_list) ip ->
        ClientIP.extract_best_ip ip_list = ip)
  /\ (forall l1 ip l2 n,
        ClientIP.entries ip_list = (l1 ++ ip :: l2)%list ->
        Forall (fun e => e = "" \/ ClientIP.is_ipv6 e = true) l1 ->
        Ipaddress.ip_address ip = Some (Ipaddress.IPv4Address n) ->
        ClientIP.extract_best_ip ip_list = ip)
  /\ (forall ip,
        Forall (fun e => e = "" \/ ClientIP.is_ipv6 e = true) (ClientIP.entries ip_list) ->
        ResolverSpec.first_such (fun e => e <> "") (ClientIP.entries ip_list) ip ->
        ClientIP.extract_best_ip ip_list = ClientIP.simplify_ipv6 ip)
  /\ (Forall (fun e => e = "") (ClientIP.entries ip_list) ->
      ClientIP.extract_best_ip ip_list = "unknown").
Proof.
  split; [apply get_real_client_ip_resolve|].
  split.
  { intros Hnone. rewrite get_real_client_ip_resolve. unfold ResolverSpec.resolve.
    by rewrite first_present_None. }
  split; [apply extract_best_ip_first_non_ipv6|].
  split.
  { intros l1 ip l2 n Hl Hl1 Hip. apply extract_best_ip_first_non_ipv6.
    exists l1, l2. split; [exact Hl|]. split; [by eapply ipv4_is_not_ipv6|].
    eapply Forall_impl; [exact Hl1|]. intros y [->|Hy] [Hne Hv]; congruence. }
  split; [apply extract_best_ip_first_ipv6 | apply extract_best_ip_all_empty].
Qed.

Lemma resolver_priority_order_witness :
  let req :=
    ClientIP.Request
      {[ "X-Forwarded-For" := " , 2001:0db8::1,203.0.113.9"; "X-Real-IP" := "192.0.2.1" ]}
      (Some "198.51.100.7") in
  (ClientIP.get_real_client_ip req).1 = ResolverSpec.resolve (ClientIP.sources req)
  /\ ClientIP.extract_best_ip " , 2001:0db8::1,203.0.113.9" = "203.0.113.9".
Proof.
  intros req.
  destruct (resolver_priority_order req " , 2001:0db8::1,203.0.113.9")
    as (Hres & _ & _ & Hv4 & _).
  split; [exact Hres|].
  apply (Hv4 [""; "2001:0db8::1"] "203.0.113.9" [] 3405803785).
  - vm_compute. reflexivity.
  - constructor; [left; reflexivity|].
    constructor; [right; vm_compute; reflexivity|]. constructor.
  - vm_compute. reflexivity.
Defined.

(** The claim C5 fails where it says that 'unknown' is returned when all
    parsing fails and that a list header gives its first IPv4 entry: an
    entry that does not parse is returned as it stands. *)
Lemma unparseable_entry_is_returned :
  Forall (fun e => Ipaddress.ip_address e = None) (ClientIP.entries "not-an-ip")
  /\ (ClientIP.get_real_client_ip
        (ClientIP.Request {[ "X-Real-IP" := "not-an-ip" ]} None)).1 = "not-an-ip"
  /\ (ClientIP.get_real_client_ip
        (ClientIP.Request {[ "X-Real-IP" := "not-an-ip" ]} None)).1 <> "unknown"
  /\ (ClientIP.get_real_client_ip
        (ClientIP.Request {[ "X-Forwarded-For" := "not-an-ip, 203.0.113.9" ]} None)).1
     <> "203.0.113.9".
Proof.
  split; [repeat constructor|]. split; [vm_compute; reflexivity|].
  split; vm_compute; discriminate.
Qed.

(** C7, as the code has it. The resolver is a total function: no exception
    leaves it. A source that is present and not empty always answers, so the
    sources after it are never read; and an entry that does not parse as an
    address counts as not being IPv6 and is returned as it stands when the
    entries before it are empty or IPv6. *)
Theorem resolver_never_falls_through
    (req1 req2 : ClientIP.request) (n : nat) (v : string) :
  ClientIP.sources req1 !! n = Some (Some v) ->
  v <> "" ->
  take (S n) (ClientIP.sources req1) = take (S n) (ClientIP.sources req2) ->
  (ClientIP.get_real_client_ip req1).1 = (ClientIP.get_real_client_ip req2).1
  /\ (forall ip_list l1 ip l2,
        ClientIP.entries ip_list = (l1 ++ ip :: l2)%list ->
        Forall (fun e => e = "" \/ ClientIP.is_ipv6 e = true) l1 ->
        ip <> "" ->
        Ipaddress.ip_address ip = None ->
        ClientIP.extract_best_ip ip_list = ip).
Proof.
  intros Hn Hv Htake. split.
  - rewrite !get_real_client_ip_resolve. unfold ResolverSpec.resolve.
    by rewrite (first_present_prefix 0 n _ _ v Hn Hv Htake).
  - intros ip_list l1 ip l2 Hl Hl1 Hne Hip. apply extract_best_ip_first_non_ipv6.
    exists l1, l2. split; [exact Hl|].
    split; [split; [exact Hne | by apply unparseable_is_not_ipv6]|].
    eapply Forall_impl; [exact Hl1|]. intros y [->|Hy] [Hne' Hv']; congruence.
Qed.

Lemma resolver_never_falls_through_witness :
  (ClientIP.get_real_client_ip
     (ClientIP.Request
        {[ "X-Forwarded-For" := "not-an-ip"; "X-Real-IP" := "203.0.113.9" ]}
        (Some "198.51.100.7"))).1
  = (ClientIP.get_real_client_ip
       (ClientIP.Request {[ "X-Forwarded-For" := "not-an-ip" ]} None)).1.
Proof.
  apply (resolver_never_falls_through _ _ 2 "not-an-ip");
    [vm_compute; reflexivity | discriminate | vm_compute; reflexivity].
Defined.

(** The claim C7 fails: a malformed X-Forwarded-For does not let the
    resolver go on to X-Real-IP, the malformed text is the answer. *)
Lemma malformed_source_answers :
  Forall (fun e => Ipaddress.ip_address e = None) (ClientIP.entries "not-an-ip")
  /\ (ClientIP.get_real_client_ip
        (ClientIP.Request
           {[ "X-Forwarded-For" := "not-an-ip"; "X-Real-IP" := "203.0.113.9" ]}
           (Some "198.51.100.7"))).1 = "not-an-ip"
  /\ (ClientIP.get_real_client_ip
        (ClientIP.Request
           {[ "X-Forwarded-For" := "not-an-ip"; "X-Real-IP" := "203.0.113.9" ]}
           (Some "198.51.100.7"))).1 <> ClientIP.extract_best_ip "203.0.113.9".
Proof.
  split; [repeat constructor|]. split; [vm_compute; reflexivity|].
  vm_compute. discriminate.
Qed.

(** ** The upload loop *)

Section UploadFacts.
Context `{Platform}.

Lemma create_thumbnail_uploads w image_path thumbnail_path :
  uploads (create_thumbnail w image_path thumbnail_path).1 = uploads w.
Proof.
  unfold create_thumbnail. repeat case_match; reflexivity.
Qed.

Lemma create_thumbnail_saves w image_path thumbnail_path o p :
  EvSave o p ∈ trace (create_thumbnail w image_path thumbnail_path).1 ->
  EvSave o p ∈ trace w.
Proof.
  unfold create_thumbnail. repeat case_match; simpl; auto.
  rewrite elem_of_app, list_elem_of_singleton. intros [?|?]; [done|discriminate].
Qed.

(** After the clean-up of the [except] branch the file is gone. *)
Lemma cleanup_absent w file_path :
  uploads (match os_remove w file_path with Some w' => w' | None => w end)
    !! file_path = None.
Proof.
  unfold os_remove. destruct (uploads w !! file_path) eqn:Hw; simpl; [|exact Hw].
  apply lookup_delete_eq.
Qed.

Lemma cleanup_other w file_path name :
  name <> file_path ->
  uploads (match os_remove w file_path with Some w' => w' | None => w end) !! name
  = uploads w !! name.
Proof.
  intros Hne. unfold os_remove. destruct (uploads w !! file_path); simpl; [|done].
  by apply lookup_delete_ne.
Qed.

Lemma cleanup_saves w file_path o p :
  EvSave o p ∈ trace (match os_remove w file_path with Some w' => w' | None => w end) ->
  EvSave o p ∈ trace w.
Proof.
  unfold os_remove. destruct (uploads w !! file_path); simpl; [|done].
  rewrite elem_of_app, list_elem_of_singleton. intros [?|?]; [done|discriminate].
Qed.

(** The [try] body touches the upload directory at [filename] only. *)
Lemma try_body_other w u original_filename filename name :
  name <> filename ->
  uploads (try_body w u original_filename filename).1 !! name = uploads w !! name.
Proof.
  intros Hne. unfold try_body, os_remove.
  repeat case_match; simpl; simplify_eq/=;
    rewrite ?create_thumbnail_uploads; simpl;
    rewrite ?lookup_delete_ne, ?lookup_insert_ne by done; done.
Qed.

(** A rejected file has been removed when the [try] body ends. *)
Lemma try_body_rejected w u original_filename filename w' :
  try_body w u original_filename filename = (w', Rejected) ->
  uploads w' !! filename = None.
Proof.
  unfold try_body, os_remove.
  repeat case_match; simpl; intros; simplify_eq/=. apply lookup_delete_eq.
Qed.

(** Validation reads the file at [file_path] and nothing else. *)
Lemma validate_file_content_lookup dir1 dir2 file_path filename :
  dir1 !! file_path = dir2 !! file_path ->
  validate_file_content dir1 file_path filename
  = validate_file_content dir2 file_path filename.
Proof. intros Heq. unfold validate_file_content. by rewrite Heq. Qed.

(** The three ways in which the [try] body fails. *)
Lemma try_body_failure w u original_filename filename :
  save_result u.2 <> SaveReturns
  \/ validate_file_content {[ filename := fs_stream u.1 ]} filename original_filename
     = false
  \/ read_fails u.2 = true ->
  (try_body w u original_filename filename).2 <> Uploaded.
Proof.
  intros Hcause. unfold try_body.
  destruct (save_result u.2) eqn:Hsave; [|by destruct partial].
  destruct Hcause as [Hcause|Hcause]; [done|]. simpl.
  rewrite (validate_file_content_lookup _ {[ filename := fs_stream u.1 ]})
    by (by rewrite lookup_insert_eq, lookup_singleton_eq).
  destruct (validate_file_content _ _ _) eqn:Hvalid; simpl.
  - destruct Hcause as [Hcause|Hcause]; [done|].
    unfold get_file_hash. rewrite Hcause. done.
  - unfold os_remove. simpl. rewrite lookup_insert_eq. done.
Qed.

(** The only [file.save] of the [try] body is the one of its entry. *)
Lemma try_body_saves w u original_filename filename o p :
  EvSave o p ∈ trace (try_body w u original_filename filename).1 ->
  EvSave o p ∈ trace w \/ (o = original_filename /\ p = filename).
Proof.
  unfold try_body, os_remove.
  repeat case_match; simpl; simplify_eq/=;
    try (intros Hin; apply create_thumbnail_saves in Hin; revert Hin; simpl);
    rewrite ?elem_of_app, ?list_elem_of_singleton; naive_solver.
Qed.

(** An entry that does not reach the [try] statement leaves both
    directories and the trace as they are. *)
Lemma process_file_not_saved st u :
  reaches_save u = false ->
  uploads (world (process_file st u)) = uploads (world st)
  /\ thumbnails (world (process_file st u)) = thumbnails (world st)
  /\ trace (world (process_file st u)) = trace (world st)
  /\ uploaded_count (process_file st u) = uploaded_count st.
Proof.
  unfold reaches_save, process_file. intros Hno.
  destruct (is_present u); simpl in *; [|done].
  rewrite Hno. simpl. by destruct (PyStr.is_empty _).
Qed.

Lemma process_file_saved st u :
  reaches_save u = true ->
  process_file st u =
    let original_filename := secure_filename (fs_filename u.1) in
    match try_body (world st) u original_filename (stored_name u) with
    | (w, Uploaded) => MkLoop w (S (uploaded_count st)) (failed_count st)
    | (w, Rejected) => MkLoop w (uploaded_count st) (S (failed_count st))
    | (w, Raised) =>
        MkLoop (flash ("Error processing file: " +:+ original_filename)
                  (match os_remove w (stored_name u) with
                   | Some w' => w'
                   | None => w
                   end))
               (uploaded_count st) (S (failed_count st))
    end.
Proof.
  unfold reaches_save, process_file. intros Hyes.
  apply andb_prop in Hyes as [-> Hallowed]. simpl. rewrite Hallowed. simpl.
  destruct (PyStr.is_empty (secure_filename (fs_filename u.1))) eqn:Hempty;
    [|reflexivity].
  destruct (secure_filename (fs_filename u.1)); [discriminate Hallowed|discriminate].
Qed.

(** One iteration touches the upload directory at the stored name of its
    entry only. *)
Lemma process_file_other st u name :
  name <> stored_name u ->
  uploads (world (process_file st u)) !! name = uploads (world st) !! name.
Proof.
  intros Hne. destruct (reaches_save u) eqn:Hreach.
  2:{ by destruct (process_file_not_saved st u Hreach) as (-> & _). }
  rewrite (process_file_saved st u Hreach). simpl.
  pose proof (try_body_other (world st) u (secure_filename (fs_filename u.1))
                (stored_name u) name Hne) as Hbody.
  destruct (try_body _ _ _ _) as [w r]. simpl in Hbody.
  destruct r; simpl; [done|done|]. by rewrite cleanup_other.
Qed.

(** An entry counted as failed has no file in the upload directory when
    its iteration ends, unless the directory was not touched at all. *)
Lemma process_file_failed st u :
  failed_count (process_file st u) = S (failed_count st) ->
  uploads (world (process_file st u)) !! stored_name u = None
  \/ uploads (world (process_file st u)) = uploads (world st).
Proof.
  destruct (reaches_save u) eqn:Hreach.
  2:{ destruct (process_file_not_saved st u Hreach) as (-> & _). auto. }
  rewrite (process_file_saved st u Hreach). simpl.
  destruct (try_body _ _ _ _) as [w r] eqn:Hbody.
  destruct r; simpl; intros Hcount; [lia| |].
  - left. by eapply try_body_rejected.
  - left. apply cleanup_absent.
Qed.

(** Every present entry is counted once, as uploaded or as failed. *)
Lemma process_file_counts st u :
  (uploaded_count (process_file st u) + failed_count (process_file st u)
   = uploaded_count st + failed_count st + (if is_present u then 1 else 0))%nat
  /\ (failed_count st <= failed_count (process_file st u))%nat.
Proof.
  unfold process_file. destruct (is_present u); simpl; [|lia].
  destruct (PyStr.is_empty _); simpl; [lia|].
  destruct (allowed_file _); simpl; [|lia].
  destruct (try_body _ _ _ _) as [w []]; simpl; lia.
Qed.

(** An entry counted as uploaded has its file, whole, in the upload
    directory when its iteration ends. *)
Lemma process_file_uploaded st u :
  uploaded_count (process_file st u) = S (uploaded_count st) ->
  uploads (world (process_file st u)) !! stored_name u = Some (fs_stream u.1).
Proof.
  destruct (reaches_save u) eqn:Hreach.
  2:{ destruct (process_file_not_saved st u Hreach) as (_ & _ & _ & ->). lia. }
  rewrite (process_file_saved st u Hreach). simpl.
  destruct (try_body _ _ _ _) as [w r] eqn:Hbody.
  destruct r; simpl; intros Hcount; [|lia|lia].
  revert Hbody. unfold try_body, os_remove.
  repeat case_match; intros; simplify_eq/=;
    rewrite ?create_thumbnail_uploads; simpl; apply lookup_insert_eq.
Qed.

Lemma process_file_saves st u o p :
  EvSave o p ∈ trace (world (process_file st u)) ->
  EvSave o p ∈ trace (world st)
  \/ (reaches_save u = true /\ o = secure_filename (fs_filename u.1)
      /\ p = stored_name u).
Proof.
  destruct (reaches_save u) eqn:Hreach.
  2:{ destruct (process_file_not_saved st u Hreach) as (_ & _ & -> & _). auto. }
  rewrite (process_file_saved st u Hreach). simpl.
  pose proof (try_body_saves (world st) u (secure_filename (fs_filename u.1))
                (stored_name u) o p) as Hbody.
  destruct (try_body _ _ _ _) as [w r]. simpl in Hbody.
  destruct r; simpl; intros Hin; try apply cleanup_saves in Hin;
    apply Hbody in Hin as [?|[-> ->]]; auto.
Qed.

(** *** The loop as a whole *)

Lemma loop_other (files : list upload) st name :
  (forall u, u ∈ files -> reaches_save u = true -> stored_name u <> name) ->
  uploads (world (fold_left process_file files st)) !! name
  = uploads (world st) !! name.
Proof.
  revert st. induction files as [|u files IH]; intros st Hfiles; simpl; [done|].
  rewrite IH by (intros u' Hu'; apply Hfiles; by right).
  destruct (reaches_save u) eqn:Hreach.
  - apply process_file_other. intros ->. by eapply Hfiles; [left|..].
  - by destruct (process_file_not_saved st u Hreach) as (-> & _).
Qed.

Lemma loop_counts (files : list upload) st :
  (uploaded_count (fold_left process_file files st)
   + failed_count (fold_left process_file files st)
   = uploaded_count st + failed_count st + length (filter (fun u => is_present u = true) files))%nat
  /\ (failed_count st <= failed_count (fold_left process_file files st))%nat.
Proof.
  revert st. induction files as [|u files IH]; intros st; simpl; [lia|].
  destruct (IH (process_file st u)) as [-> Hle].
  destruct (process_file_counts st u) as [-> Hle'].
  rewrite filter_cons. destruct (is_present u); case_decide; simpl; try done; lia.
Qed.

Lemma loop_saves (files : list upload) st o p :
  EvSave o p ∈ trace (world (fold_left process_file files st)) ->
  EvSave o p ∈ trace (world st)
  \/ exists u, u ∈ files /\ reaches_save u = true
               /\ o = secure_filename (fs_filename u.1) /\ p = stored_name u.
Proof.
  revert st. induction files as [|u files IH]; intros st; simpl; [auto|].
  intros Hin. apply IH in Hin as [Hin|(u' & Hu' & Hrest)].
  - apply process_file_saves in Hin as [?|Hu]; [by left|].
    right. exists u. split; [by left | exact Hu].
  - right. exists u'. split; [by right | exact Hrest].
Qed.

Lemma loop_files (files : list upload) st name :
  is_Some (uploads (world (fold_left process_file files st)) !! name) ->
  is_Some (uploads (world st) !! name)
  \/ exists u, u ∈ files /\ reaches_save u = true /\ name = stored_name u.
Proof.
  revert st. induction files as [|u files IH]; intros st; simpl; [auto|].
  intros Hin. apply IH in Hin as [Hin|(u' & Hu' & Hrest)].
  - destruct (reaches_save u) eqn:Hreach.
    + destruct (decide (name = stored_name u)) as [->|Hne].
      * right. exists u. split; [by left | done].
      * left. by rewrite process_file_other in Hin.
    + left. by destruct (process_file_not_saved st u Hreach) as (<- & _).
  - right. exists u'. split; [by right | exact Hrest].
Qed.

Lemma report_world st :
  uploads (report st) = uploads (world st)
  /\ thumbnails (report st) = thumbnails (world st)
  /\ trace (report st) = trace (world st).
Proof. unfold report. by repeat case_match. Qed.

End UploadFacts.

Section UploadRequest.
Context `{Platform}.

(** The handler changes the directories and the trace through the loop
    only. *)
Lemma upload_files_world (w : World) (files : list upload) :
  (uploads (upload_files w files).1 = uploads w
   /\ trace (upload_files w files).1 = trace w)
  \/ (uploads (upload_files w files).1 = uploads (world (upload_loop w files))
      /\ trace (upload_files w files).1 = trace (world (upload_loop w files))).
Proof.
  unfold upload_files. destruct files as [|u files]; [by left|].
  destruct (MAX_FILES_PER_REQUEST <? _)%nat; [by left|].
  right. simpl. by destruct (report_world (upload_loop w (u :: files))) as (-> & _ & ->).
Qed.

Lemma upload_loop_app (w : World) (before after : list upload) :
  upload_loop w (before ++ after)
  = fold_left process_file after (upload_loop w before).
Proof. unfold upload_loop. apply fold_left_app. Qed.

End UploadRequest.

(** C2. An entry with a file name whose sanitised form has no extension or
    an extension outside the allowed set is counted as failed in its
    iteration, which leaves both directories and the sequence of file system
    calls as they were: [file.save] is not reached.  In the request as a
    whole no [file.save] is made under that name, and every file that the
    request adds to the upload directory belongs to an entry whose name
    passed the check. *)
Theorem disallowed_extension_is_never_saved
    `{Platform} (w : World) (before after : list upload) (u : upload) :
  is_present u = true ->
  allowed_file (secure_filename (fs_filename u.1)) = false ->
  let st := upload_loop w before in
  let st' := process_file st u in
  let files := (before ++ u :: after)%list in
  failed_count st' = S (failed_count st)
  /\ uploaded_count st' = uploaded_count st
  /\ uploads (world st') = uploads (world st)
  /\ thumbnails (world st') = thumbnails (world st)
  /\ trace (world st') = trace (world st)
  /\ (failed_count st < failed_count (upload_loop w files))%nat
  /\ (forall path,
        EvSave (secure_filename (fs_filename u.1)) path ∈ trace (upload_files w files).1 ->
        EvSave (secure_filename (fs_filename u.1)) path ∈ trace w)
  /\ (forall name,
        is_Some (uploads (upload_files w files).1 !! name) ->
        is_Some (uploads w !! name)
        \/ exists u', u' ∈ files
                      /\ allowed_file (secure_filename (fs_filename u'.1)) = true
                      /\ name = stored_name u').
Proof.
  intros Hpresent Hext st st' files.
  assert (reaches_save u = false) as Hreach.
  { unfold reaches_save. rewrite Hext. apply andb_false_r. }
  destruct (process_file_not_saved st u Hreach) as (Hup & Hth & Htr & Hcount).
  assert (failed_count st' = S (failed_count st)) as Hfailed.
  { subst st'. unfold process_file. rewrite Hpresent, Hext. simpl.
    by destruct (PyStr.is_empty _). }
  repeat split; try assumption.
  - subst files. rewrite upload_loop_app. simpl. fold st st'.
    destruct (loop_counts after st') as [_ Hle]. lia.
  - intros path Hin.
    destruct (upload_files_world w files) as [[_ Heq]|[_ Heq]]; rewrite Heq in Hin;
      [exact Hin|].
    apply loop_saves in Hin as [Hin|(u' & _ & Hreach' & Hname & _)]; [exact Hin|].
    unfold reaches_save in Hreach'. apply andb_prop in Hreach' as [_ Hok].
    rewrite <- Hname in Hok. congruence.
  - intros name Hin.
    destruct (upload_files_world w files) as [[Heq _]|[Heq _]]; rewrite Heq in Hin;
      [by left|].
    apply loop_files in Hin as [Hin|(u' & Hu' & Hreach' & Hname)]; [by left|].
    right. exists u'. unfold reaches_save in Hreach'.
    apply andb_prop in Hreach' as [_ Hok]. auto.
Qed.

Lemma disallowed_extension_is_never_saved_witness :
  let u := TestPlatform.calm "setup.exe" TestPlatform.executable "02" in
  let files :=
    [TestPlatform.calm "a.png" TestPlatform.picture "01"; u;
     TestPlatform.calm "README" TestPlatform.picture "03"] in
  is_present u = true
  /\ allowed_file (TestPlatform.secure_filename_ascii "setup.exe") = false
  /\ forall path,
       EvSave "setup.exe" path
         ∈ trace (upload_files (H := TestPlatform.platform) TestPlatform.empty_world files).1 ->
       False.
Proof.
  intros u files.
  split; [vm_compute; reflexivity|]. split; [vm_compute; reflexivity|].
  intros path Hin.
  destruct (disallowed_extension_is_never_saved (H := TestPlatform.platform)
              TestPlatform.empty_world
              [TestPlatform.calm "a.png" TestPlatform.picture "01"] 
              [TestPlatform.calm "README" TestPlatform.picture "03"] u)
    as (_ & _ & _ & _ & _ & _ & Hsave & _);
    [vm_compute; reflexivity | vm_compute; reflexivity |].
  apply Hsave in Hin. simpl in Hin. by apply elem_of_nil in Hin.
Defined.

(** C4. Stored names are taken to be fresh, as names that begin with a
    random UUID are.  An entry whose [file.save] raises, whose content fails
    validation or whose file cannot be read back is counted as failed and
    not as uploaded.  An entry counted as failed has no file in the upload
    directory when its iteration ends, nor when the request ends; the loop
    goes on with the entries after it; and every present entry of the batch
    is counted, as uploaded or as failed. *)
Theorem failed_file_is_cleaned_up
    `{Platform} (w : World) (before after : list upload) (u : upload) :
  NoDup (stored_name <$> (before ++ u :: after)%list) ->
  (forall u', u' ∈ (before ++ u :: after)%list -> uploads w !! stored_name u' = None) ->
  let st := upload_loop w before in
  let st' := process_file st u in
  let final := upload_loop w (before ++ u :: after)%list in
  (reaches_save u = true ->
   save_result u.2 <> SaveReturns
   \/ validate_file_content {[ stored_name u := fs_stream u.1 ]} (stored_name u)
        (secure_filename (fs_filename u.1)) = false
   \/ read_fails u.2 = true ->
   failed_count st' = S (failed_count st) /\ uploaded_count st' = uploaded_count st)
  /\ (failed_count st' = S (failed_count st) ->
      uploads (world st') !! stored_name u = None
      /\ uploads (world final) !! stored_name u = None)
  /\ final = fold_left process_file after st'
  /\ (failed_count st' <= failed_count final)%nat
  /\ (uploaded_count final + failed_count final
      = length (filter (fun u' => is_present u' = true) (before ++ u :: after)%list))%nat.
Proof.
  intros Hnodup Hfresh st st' final.
  rewrite fmap_app, fmap_cons in Hnodup.
  apply NoDup_app in Hnodup as (_ & Hbefore & Hafter).
  apply NoDup_cons in Hafter as [Hafter _].
  assert (uploads (world st) !! stored_name u = None) as Hst.
  { subst st. unfold upload_loop. rewrite loop_other.
    - apply Hfresh. apply elem_of_app. right. by left.
    - intros u' Hu' _ Heq. apply (Hbefore (stored_name u')).
      + apply list_elem_of_fmap. eauto.
      + rewrite Heq. by left. }
  assert (final = fold_left process_file after st') as Hfinal.
  { subst final st' st. by rewrite upload_loop_app. }
  split; [|split; [|repeat split; try assumption]].
  - intros Hreach Hcause. subst st'. rewrite (process_file_saved st u Hreach). simpl.
    pose proof (try_body_failure (world st) u (secure_filename (fs_filename u.1))
                  (stored_name u) Hcause) as Hbody.
    destruct (try_body _ _ _ _) as [w1 []]; simpl in *; [done|done|done].
  - intros Hfailed.
    assert (uploads (world st') !! stored_name u = None) as Hst'.
    { destruct (process_file_failed _ _ Hfailed) as [Hnone|Hsame]; [exact Hnone|].
      subst st'. by rewrite Hsame. }
    split; [exact Hst'|].
    rewrite Hfinal, loop_other; [exact Hst'|].
    intros u' Hu' _ Heq. apply Hafter. rewrite <- Heq.
    apply list_elem_of_fmap. eauto.
  - rewrite Hfinal. apply loop_counts.
  - subst final. unfold upload_loop.
    destruct (loop_counts (before ++ u :: after) (MkLoop w 0 0)) as [-> _].
    simpl. lia.
Qed.

(** A batch of three on the test platform: a picture, an executable named
    like a picture, and a picture whose [file.save] breaks off after the
    first byte. *)
Lemma failed_file_is_cleaned_up_witness :
  let before := [TestPlatform.calm "a.png" TestPlatform.picture "01"] in
  let u := TestPlatform.calm "evil.png" TestPlatform.executable "02" in
  let after :=
    [(MkFileStorage "c.png" TestPlatform.picture,
      MkChance "03" (SaveRaises (Some [Byte.x89])) false)] in
  let st := upload_loop (H := TestPlatform.platform) TestPlatform.empty_world before in
  let final :=
    upload_loop (H := TestPlatform.platform) TestPlatform.empty_world
      (before ++ u :: after)%list in
  failed_count (process_file (H := TestPlatform.platform) st u) = S (failed_count st)
  /\ uploads (world final) !! "02_evil.png" = None
  /\ (uploaded_count final + failed_count final = 3)%nat.
Proof.
  intros before u after st final.
  destruct (failed_file_is_cleaned_up (H := TestPlatform.platform)
              TestPlatform.empty_world before after u)
    as (Hfailed & Hnone & _ & _ & Hcount).
  - apply (bool_decide_unpack _). vm_compute. reflexivity.
  - intros u' _. apply lookup_empty.
  - destruct Hfailed as [Hfailed _];
      [vm_compute; reflexivity | right; left; vm_compute; reflexivity |].
    split; [exact Hfailed|]. split; [apply (Hnone Hfailed) | exact Hcount].
Defined.

Example batch_goes_on_after_failures :
  let final :=
    upload_loop (H := TestPlatform.platform) TestPlatform.empty_world
      [TestPlatform.calm "evil.png" TestPlatform.executable "02";
       (MkFileStorage "c.png" TestPlatform.picture,
        MkChance "03" (SaveRaises (Some [Byte.x89])) false);
       (MkFileStorage "d.png" TestPlatform.picture, MkChance "04" SaveReturns true);
       TestPlatform.calm "" [] "05";
       TestPlatform.calm "a.png" TestPlatform.picture "01"] in
  map fst (map_to_list (uploads (world final))) = ["01_a.png"]
  /\ uploaded_count final = 1%nat /\ failed_count final = 3%nat.
Proof. vm_compute. repeat split. Qed.

(** ** Thumbnails *)

Section ThumbnailFacts.
Context `{Platform}.

(** The normalised image has the size of the source and mode RGB or L. *)
Lemma flatten_size_mode (img flat : Image) :
  flatten img = Some flat ->
  size flat = size img /\ (mode flat = "RGB" \/ mode flat = "L").
Proof.
  unfold flatten, image_convert.
  destruct (bool_decide (mode img ∈ ["RGBA"; "LA"; "P"])).
  - destruct (String.eqb (mode img) "P"); simpl.
    + destruct (convert_pixels img "RGBA") as [px|]; simpl; [|discriminate].
      destruct (paste_mask_pixels _ _); simpl; intros; simplify_eq/=; auto.
    + destruct (bool_decide (mode img ∈ ["RGBA"; "LA"])).
      * destruct (paste_mask_pixels _ _); simpl; intros; simplify_eq/=; auto.
      * intros; simplify_eq/=; auto.
  - destruct (bool_decide (mode img ∈ ["RGB"; "L"])) eqn:Hmode; simpl.
    + intros; simplify_eq/=. split; [reflexivity|].
      apply bool_decide_eq_true in Hmode.
      rewrite !elem_of_cons, elem_of_nil in Hmode. tauto.
    + destruct (convert_pixels img "RGB"); simpl; intros; simplify_eq/=; auto.
Qed.

Lemma center_on_canvas_shape (img : Image) :
  mode (center_on_canvas img) = "RGB"
  /\ size (center_on_canvas img) = (300, 300)
  /\ forall i j,
       pixels (center_on_canvas img) i j
       = if in_box ((300 - fst (size img)) `div` 2) ((300 - snd (size img)) `div` 2)
                   (size img) i j
         then pixels img (i - (300 - fst (size img)) `div` 2)
                         (j - (300 - snd (size img)) `div` 2)
         else white.
Proof. repeat split. Qed.

Lemma centered_offsets (n : Z) :
  0 <= n <= 300 -> 0 <= (300 - n) `div` 2 /\ (300 - n) `div` 2 + n <= 300.
Proof.
  intros Hn. pose proof (Z.div_mod (300 - n) 2 ltac:(lia)) as Hdiv.
  pose proof (Z.mod_pos_bound (300 - n) 2 ltac:(lia)). lia.
Qed.

End ThumbnailFacts.

(** C6. Let [img.thumbnail(size)] keep its promise that the image is no
    larger than [size] afterwards.  When [create_thumbnail] succeeds, the
    file it has written under the thumbnail name is the image saved as JPEG
    with quality 85 and optimisation on, of an RGB canvas of exactly 300 by
    300 pixels: the source, normalised and resized so that neither side
    exceeds 300, sits at the offsets (300 - w) // 2 and (300 - h) // 2, fully
    inside the canvas, and every other pixel is white. *)
Theorem thumbnail_is_square_jpeg
    `{Platform} (w w' : World) (image_path thumbnail_path : string) :
  (forall img img',
     image_thumbnail img THUMBNAIL_SIZE = Some img' ->
     0 <= fst (size img') <= 300 /\ 0 <= snd (size img') <= 300) ->
  create_thumbnail w image_path thumbnail_path = (w', true) ->
  exists source img flat resized data,
    uploads w !! image_path = Some source
    /\ image_open source = Some img
    /\ flatten img = Some flat
    /\ image_thumbnail flat (300, 300) = Some resized
    /\ image_save (center_on_canvas resized) "JPEG" 85 true = Some data
    /\ thumbnails w' !! thumbnail_path = Some data
    /\ uploads w' = uploads w
    /\ mode (center_on_canvas resized) = "RGB"
    /\ size (center_on_canvas resized) = (300, 300)
    /\ fst (size resized) <= 300 /\ snd (size resized) <= 300
    /\ (let x := (300 - fst (size resized)) `div` 2 in
        let y := (300 - snd (size resized)) `div` 2 in
        0 <= x /\ x + fst (size resized) <= 300
        /\ 0 <= y /\ y + snd (size resized) <= 300
        /\ forall i j,
             pixels (center_on_canvas resized) i j
             = if in_box x y (size resized) i j
               then pixels resized (i - x) (j - y)
               else white).
Proof.
  intros Hfits. unfold create_thumbnail.
  destruct (uploads w !! image_path) as [source|] eqn:Hsource; simpl; [|discriminate].
  destruct (image_open source) as [img|] eqn:Himg; simpl; [|discriminate].
  destruct (flatten img) as [flat|] eqn:Hflat; simpl; [|discriminate].
  destruct (image_thumbnail flat THUMBNAIL_SIZE) as [resized|] eqn:Hresized;
    [|discriminate].
  destruct (image_save (center_on_canvas resized) "JPEG" 85 true) as [data|] eqn:Hsave;
    [|discriminate].
  intros Hw. injection Hw as <-.
  destruct (Hfits _ _ Hresized) as [Hwidth Hheight].
  destruct (centered_offsets _ Hwidth) as [Hx0 Hx1].
  destruct (centered_offsets _ Hheight) as [Hy0 Hy1].
  exists source, img, flat, resized, data. simpl.
  rewrite lookup_insert_eq. repeat split; auto; lia.
Qed.

(** *** The thumbnail size of the test platform *)

Lemma round_aspect_bound (num den bound : Z) (key : Z -> Z * Z) :
  0 < den -> 1 <= bound -> 0 <= num -> num <= bound * den ->
  1 <= TestPlatform.round_aspect num den key <= bound.
Proof.
  intros Hden Hbound Hnum Hle. unfold TestPlatform.round_aspect.
  assert ((num + den - 1) `div` den <= bound) as Hhi.
  { apply Z.lt_succ_r, Z.div_lt_upper_bound; lia. }
  assert (num `div` den <= (num + den - 1) `div` den) as Hlo.
  { apply Z.div_le_mono; lia. }
  destruct (key (num `div` den)) as [a b], (key ((num + den - 1) `div` den)) as [c d].
  destruct (c * b <? a * d); lia.
Qed.

Lemma thumbnail_size_fits (width height x y : Z) :
  0 < width -> 0 < height -> 0 < x -> 0 < y ->
  1 <= fst (TestPlatform.thumbnail_size (width, height) (x, y)) <= x
  /\ 1 <= snd (TestPlatform.thumbnail_size (width, height) (x, y)) <= y.
Proof.
  intros Hw Hh Hx Hy. unfold TestPlatform.thumbnail_size.
  destruct ((width <=? x) && (height <=? y)) eqn:Hfit.
  { apply andb_prop in Hfit as [?%Z.leb_le ?%Z.leb_le]. simpl. lia. }
  destruct (width * y <=? x * height) eqn:Hwide; simpl.
  - apply Z.leb_le in Hwide. split; [|lia]. apply round_aspect_bound; nia.
  - apply Z.leb_gt in Hwide. split; [lia|]. apply round_aspect_bound; nia.
Qed.

Lemma test_thumbnail_fits (img img' : Image) :
  image_thumbnail (Platform := TestPlatform.platform) img THUMBNAIL_SIZE = Some img' ->
  0 <= fst (size img') <= 300 /\ 0 <= snd (size img') <= 300.
Proof.
  simpl. unfold TestPlatform.thumbnail_exact. destruct (size img) as [wd ht].
  destruct ((0 <? wd) && (0 <? ht) && _ && _) eqn:Hpos; [|discriminate].
  apply andb_prop in Hpos as [Hpos _]. apply andb_prop in Hpos as [Hpos _].
  apply andb_prop in Hpos as [?%Z.ltb_lt ?%Z.ltb_lt].
  pose proof (thumbnail_size_fits wd ht 300 300) as Hfits.
  unfold THUMBNAIL_SIZE. destruct (TestPlatform.thumbnail_size _ _) as [w' h'].
  intros; simplify_eq/=. lia.
Qed.

(** A picture of 600 by 400 pixels becomes 300 by 200 and sits 50 pixels
    below the top of the canvas. *)
Lemma thumbnail_is_square_jpeg_witness :
  let w := MkWorld {[ "01_a.png" := TestPlatform.picture ]} ∅ [] [] in
  exists w' resized,
    create_thumbnail (H := TestPlatform.platform) w "01_a.png" "thumb_01_a.jpg" = (w', true)
    /\ size resized = (300, 200)
    /\ size (center_on_canvas resized) = (300, 300)
    /\ pixels (center_on_canvas resized) 0 49 = white
    /\ pixels (center_on_canvas resized) 0 50 = (0, 0, 0).
Proof.
  intros w.
  destruct (create_thumbnail (H := TestPlatform.platform) w "01_a.png" "thumb_01_a.jpg")
    as [w' ok] eqn:Hcreate.
  assert (ok = true) as -> by (vm_compute in Hcreate; congruence).
  destruct (thumbnail_is_square_jpeg (H := TestPlatform.platform)
              w w' "01_a.png" "thumb_01_a.jpg" test_thumbnail_fits Hcreate)
    as (source & img & flat & resized & data & Hsource & Himg & Hflat & Hresized
        & _ & _ & _ & _ & Hsize & _).
  exists w', resized. split; [reflexivity|].
  vm_compute in Hsource. injection Hsource as <-.
  vm_compute in Himg. injection Himg as <-.
  vm_compute in Hflat. injection Hflat as <-.
  vm_compute in Hresized. injection Hresized as <-.
  repeat split.
Defined.

(** ** The gallery *)

Lemma ltb_irrefl (s : string) : String.ltb s s = false.
Proof.
  unfold String.ltb. pose proof (String.compare_antisym s s) as Hanti.
  destruct (String.compare s s); try reflexivity. discriminate.
Qed.

(** The formatted time is the same for two instants of the same minute. *)
Lemma format_minute_same_minute (offset t1 t2 : Z) :
  (t1 + offset) `div` 60 = (t2 + offset) `div` 60 ->
  Strftime.format_minute offset t1 = Strftime.format_minute offset t2.
Proof. unfold Strftime.format_minute. by intros ->. Qed.

Section GalleryFacts.
Context `{Platform}.

Lemma index_entry_allowed thumbs (e : dir_entry) :
  allowed_file (de_name e) = true ->
  exists info,
    index_entry thumbs e = Some [info]
    /\ fi_name info = de_name e
    /\ (fi_type info = "image" \/ fi_type info = "video")
    /\ get_file_type (de_name e) = Some (fi_type info)
    /\ fi_upload_time info = Strftime.format_minute utc_offset (de_ctime e)
    /\ fi_has_thumbnail info
       = (String.eqb (fi_type info) "image"
          && bool_decide (is_Some (thumbs !! thumbnail_name (de_name e)))).
Proof.
  intros Hok. unfold index_entry. rewrite Hok.
  destruct (get_file_type_allowed _ Hok) as [Hkind|Hkind]; rewrite Hkind; simpl;
    eexists; (split; [reflexivity|]); simpl; auto 10.
Qed.

Lemma index_entry_rejected thumbs (e : dir_entry) :
  allowed_file (de_name e) = false -> index_entry thumbs e = Some [].
Proof. intros Hno. unfold index_entry. by rewrite Hno. Qed.

Lemma insert_desc_perm (x : file_info) (l : list file_info) :
  insert_desc x l ≡ₚ x :: l.
Proof.
  induction l as [|y l IH]; simpl; [done|].
  destruct (String.ltb _ _); [|done]. rewrite IH. apply Permutation_swap.
Qed.

Lemma sort_recent_first_perm (l : list file_info) : sort_recent_first l ≡ₚ l.
Proof.
  induction l as [|x l IH]; simpl; [done|].
  unfold sort_recent_first in *. simpl. by rewrite insert_desc_perm, IH.
Qed.

(** The lister never raises, and it lists the allowed names of the
    directory, each once. *)
Lemma index_lists_allowed_files (listing : list dir_entry) thumbs :
  exists files,
    index listing thumbs = Some files
    /\ fi_name <$> files
       ≡ₚ filter (fun name => allowed_file name = true) (de_name <$> listing).
Proof.
  assert (exists parts,
            mapM (index_entry thumbs) listing = Some parts
            /\ fi_name <$> concat parts
               = filter (fun name => allowed_file name = true) (de_name <$> listing))
    as (parts & Hparts & Hnames).
  { induction listing as [|e listing (parts & IH & Hnames)]; [by exists []|].
    rewrite fmap_cons.
    destruct (allowed_file (de_name e)) eqn:Hok.
    - destruct (index_entry_allowed thumbs e Hok) as (info & Hentry & Hname & _).
      exists ([info] :: parts). split.
      + simpl. rewrite Hentry. simpl. by rewrite IH.
      + rewrite filter_cons_True by done.
        change (concat ([info] :: parts)) with (info :: concat parts).
        by rewrite fmap_cons, Hname, Hnames.
    - exists ([] :: parts). split.
      + simpl. rewrite (index_entry_rejected thumbs e Hok). simpl. by rewrite IH.
      + rewrite filter_cons_False by congruence. exact Hnames. }
  exists (sort_recent_first (concat parts)). unfold index. rewrite Hparts.
  split; [reflexivity|]. rewrite <- Hnames.
  apply fmap_Permutation, sort_recent_first_perm.
Qed.

End GalleryFacts.

(** C9 at the input where the code departs from it. Two allowed files
    created in the same minute come out in the order of the directory
    listing: when the listing has the older one first, the older one is
    first in the gallery, although the newer one should be. *)
Theorem gallery_keeps_listing_order_within_a_minute
    `{Platform} (thumbs : gmap string bytes) (older newer : dir_entry) :
  allowed_file (de_name older) = true ->
  allowed_file (de_name newer) = true ->
  de_ctime older < de_ctime newer ->
  (de_ctime older + utc_offset) `div` 60 = (de_ctime newer + utc_offset) `div` 60 ->
  exists first second,
    index [older; newer] thumbs = Some [first; second]
    /\ fi_name first = de_name older
    /\ fi_name second = de_name newer.
Proof.
  intros Hold Hnew _ Hminute.
  destruct (index_entry_allowed thumbs older Hold) as (first & Hfirst & Hname1 & _ & _ & Ht1 & _).
  destruct (index_entry_allowed thumbs newer Hnew) as (second & Hsecond & Hname2 & _ & _ & Ht2 & _).
  exists first, second. unfold index. simpl. rewrite Hfirst, Hsecond. simpl.
  unfold sort_recent_first. simpl.
  rewrite Ht1, Ht2, (format_minute_same_minute _ _ _ Hminute), ltb_irrefl.
  auto.
Qed.

Lemma gallery_keeps_listing_order_within_a_minute_witness :
  exists first second,
    index (H := TestPlatform.platform)
      [MkDirEntry "01_a.png" 1762182005; MkDirEntry "02_b.png" 1762182050] ∅
    = Some [first; second]
    /\ fi_name first = "01_a.png" /\ fi_name second = "02_b.png".
Proof.
  apply (gallery_keeps_listing_order_within_a_minute (H := TestPlatform.platform) ∅
           (MkDirEntry "01_a.png" 1762182005) (MkDirEntry "02_b.png" 1762182050));
    vm_compute; reflexivity.
Defined.

Example gallery_same_minute :
  index (H := TestPlatform.platform)
    [MkDirEntry "01_a.png" 1762182005; MkDirEntry "02_b.png" 1762182050;
     MkDirEntry "03_c.mp4" 1762182070; MkDirEntry "notes.txt" 1762182100]
    {[ "thumb_01_a.jpg" := [Byte.xff; Byte.xd8; Byte.xff; Byte.xd9] ]}
  = Some
      [MkFileInfo "03_c.mp4" "video" "2025-11-03 15:01" false None;
       MkFileInfo "01_a.png" "image" "2025-11-03 15:00" true (Some "thumb_01_a.jpg");
       MkFileInfo "02_b.png" "image" "2025-11-03 15:00" false (Some "thumb_02_b.jpg")].
Proof. vm_compute. reflexivity. Qed.
